(** * process_csv.py: the tabular pipeline of [file-processing/process_csv.py]

    A shallow embedding of [CSVProcessor] and [main].  The script keeps one
    pandas [DataFrame] in [self.df] and rebinds it stage by stage; every stage
    method returns a flag, writes to the logger, and may let an exception of
    the library escape.  The embedding therefore has three layers:

    - Python values: scalars, cells, [str.split], [str.strip];
    - the pandas operations the script calls (module [pd]), written after the
      library's documented behaviour and its position-based implementation;
    - the methods of [CSVProcessor] and [main], in a state/log/exception
      monad, line by line after the source. *)

From Stdlib Require Import ZArith QArith Qcanon String Ascii List Sorted Permutation.
From stdpp Require Import base tactics option list sorting numbers countable strings gmap.

Local Open Scope string_scope.
Local Open Scope Z_scope.
Local Open Scope list_scope.

(** ** Python values *)

(** A non-null cell value.  Python's [==], [<] and [hash] identify an [int],
    a [float] and a [bool] of the same numeric value ([1 == 1.0 == True]), so
    numbers are kept by their exact value; a character of a [str] is a code
    point below 256. *)
Inductive scalar : Type :=
  | Num (x : Qc)
  | Str (s : string).

(** A cell: [None] is the missing value (NaN / None), which [isnull] detects. *)
Abbreviation cell := (option scalar).

Definition int (z : Z) : scalar := Num (Q2Qc (inject_Z z)).

Global Instance scalar_eq_dec : EqDecision scalar.
Proof. solve_decision. Defined.

Global Instance scalar_countable : Countable scalar.
Proof.
  refine (inj_countable'
            (fun v => match v with Num x => inl x | Str s => inr s end)
            (fun u => match u with inl x => Num x | inr s => Str s end) _).
  intros []; reflexivity.
Defined.

(** Exceptions of Python and of the library that the script can meet. *)
Inductive exn : Type :=
  | KeyError
  | ValueError
  | TypeError
  | AttributeError
  | OSError
  | EvalError (msg : string)
  | SystemExit (code : Z).

Inductive result (A : Type) : Type :=
  | Return (a : A)
  | Raise (e : exn).
Arguments Return {A} a.
Arguments Raise {A} e.

(** [a < b] and [a <= b] of Python: defined between two numbers and between
    two strings (by code point), a [TypeError] otherwise. *)
Definition py_lt (a b : scalar) : result bool :=
  match a, b with
  | Num x, Num y => Return (bool_decide (x < y)%Qc)
  | Str s, Str t => Return (String.ltb s t)
  | _, _ => Raise TypeError
  end.

Definition py_le (a b : scalar) : result bool :=
  match a, b with
  | Num x, Num y => Return (bool_decide (x <= y)%Qc)
  | Str s, Str t => Return (String.leb s t)
  | _, _ => Raise TypeError
  end.

(** [str.isspace] on one character (code points below 256). *)
Definition isspace (c : ascii) : bool :=
  let n := N.to_nat (N_of_ascii c) in
  ((9 <=? n) && (n <=? 13) || (28 <=? n) && (n <=? 32)
   || (n =? 133) || (n =? 160))%nat.

Fixpoint lstrip_chars (l : list ascii) : list ascii :=
  match l with
  | [] => []
  | c :: l' => if isspace c then lstrip_chars l' else l
  end.

(** [s.strip()] *)
Definition strip (s : string) : string :=
  string_of_list_ascii
    (rev (lstrip_chars (rev (lstrip_chars (list_ascii_of_string s))))).

(** [s.split(sep)] for a one-character separator: empty fields are kept and
    the result is never empty. *)
Fixpoint split (sep : ascii) (s : string) : list string :=
  match s with
  | EmptyString => [EmptyString]
  | String c s' =>
      if Ascii.eqb c sep then EmptyString :: split sep s'
      else match split sep s' with
           | [] => [String c EmptyString]
           | h :: t => String c h :: t
           end
  end.

(** Truth value of an optional [str] argument: [None] and [''] are false. *)
Definition truthy (o : option string) : bool :=
  match o with
  | Some s => negb (String.eqb s "")
  | None => false
  end.

(** ** The pandas operations used by the script

    A [DataFrame] is a row index (the labels [0..n-1] given at load time, which
    every later operation carries along) and an ordered list of named columns.
    A column holds Python values or nulls, as a numeric or an object column
    does; after [fillna] it may hold values of more than one type.
    Row operations are written as pandas performs them: they compute a list of
    row positions (or a boolean mask) and [take] those positions from the
    index and from every column. *)
Module pd.

Record DataFrame : Type := mkDataFrame {
  index : list nat;
  columns : list (string * list cell)
}.

Global Instance DataFrame_eq_dec : EqDecision DataFrame.
Proof. solve_decision. Defined.

(** [len(df)] *)
Definition len (df : DataFrame) : nat := length (index df).

(** [df.columns] *)
Definition names (df : DataFrame) : list string := map fst (columns df).

(** [df.empty]: some axis has length zero. *)
Definition empty (df : DataFrame) : bool :=
  (len df =? 0)%nat || (length (columns df) =? 0)%nat.

(** Row [i] seen across the columns, and the rows in order. *)
Definition row (df : DataFrame) (i : nat) : list cell :=
  map (fun c => nth i (snd c) None) (columns df).

Definition rows (df : DataFrame) : list (list cell) :=
  map (row df) (seq 0 (len df)).

(** The column(s) labelled [label]. *)
Definition labelled (label : string) (df : DataFrame) : list (string * list cell) :=
  List.filter (fun c => String.eqb (fst c) label) (columns df).

(** Positional selection ([take]); the callers below only pass positions
    below the length. *)
Definition take_list {A : Type} (d : A) (l : list A) (idx : list nat) : list A :=
  map (fun i => nth i l d) idx.

Definition take (df : DataFrame) (idx : list nat) : DataFrame :=
  {| index := take_list 0%nat (index df) idx;
     columns := map (fun c => (fst c, take_list None (snd c) idx)) (columns df) |}.

(** [np.nonzero(mask)[0]]: the positions where the mask holds. *)
Definition nonzero (mask : list bool) : list nat :=
  List.filter (fun i => nth i mask false) (seq 0 (length mask)).

(** [df[mask]] for a boolean mask; a mask of the wrong length is refused. *)
Definition getitem_mask (df : DataFrame) (mask : list bool) : result DataFrame :=
  if (length mask =? len df)%nat then Return (take df (nonzero mask))
  else Raise ValueError.

(** [df[col_list]]: the requested labels in the requested order, each label
    bringing every column that carries it; an unknown label is a [KeyError]. *)
Definition getitem_list (df : DataFrame) (col_list : list string) : result DataFrame :=
  if forallb (fun c => bool_decide (c ∈ names df)) col_list then
    Return {| index := index df;
              columns := flat_map (fun c => labelled c df) col_list |}
  else Raise KeyError.

Definition isnull (c : cell) : bool :=
  match c with None => true | Some _ => false end.

Definition notnull (c : cell) : bool := negb (isnull c).

(** [df.isnull().sum().sum()] *)
Definition isnull_sum (df : DataFrame) : Z :=
  Z.of_nat (list_sum (map (fun c => length (List.filter isnull (snd c))) (columns df))).

(** [df.dropna()] (axis 0, how 'any'): keep the rows without a null. *)
Definition dropna (df : DataFrame) : DataFrame :=
  take df (List.filter (fun i => forallb notnull (row df i)) (seq 0 (len df))).

(** [df.fillna(value)]: every null cell of every column receives [value]. *)
Definition fill_cell (value : scalar) (c : cell) : cell :=
  match c with None => Some value | Some v => Some v end.

Definition fillna (value : scalar) (df : DataFrame) : DataFrame :=
  {| index := index df;
     columns := map (fun c => (fst c, map (fill_cell value) (snd c))) (columns df) |}.

(** *** Duplicates

    [duplicated(subset, keep='first')] builds one key per row from the columns
    whose label is in the subset and scans the keys in order against a hash
    set of the keys seen so far.  Two nulls are equal keys. *)
Definition key_of (subset : list string) (df : DataFrame) (i : nat) : list cell :=
  map (fun c => nth i (snd c) None)
      (List.filter (fun c => bool_decide (fst c ∈ subset)) (columns df)).

Fixpoint mark_seen (seen : gset (list cell)) (keys : list (list cell)) : list bool :=
  match keys with
  | [] => []
  | k :: ks =>
      if decide (k ∈ seen) then true :: mark_seen seen ks
      else false :: mark_seen ({[ k ]} ∪ seen) ks
  end.

(** The frame method: an empty frame has no duplicates; [subset=None] stands
    for all columns; an unknown label is a [KeyError]; the keys are unpacked
    from the selected columns, which fails with [ValueError] when no column is
    selected. *)
Definition duplicated (df : DataFrame) (subset : option (list string)) : result (list bool) :=
  if empty df then Return []
  else
    let subset' := default (names df) subset in
    if negb (forallb (fun c => bool_decide (c ∈ names df)) subset') then Raise KeyError
    else
      match List.filter (fun c => bool_decide (fst c ∈ subset')) (columns df) with
      | [] => Raise ValueError
      | _ :: _ => Return (mark_seen ∅ (map (key_of subset' df) (seq 0 (len df))))
      end.

(** [df.drop_duplicates(subset=subset)]: [df[-df.duplicated(subset)]]. *)
Definition drop_duplicates (df : DataFrame) (subset : option (list string)) : result DataFrame :=
  if empty df then Return df
  else
    match duplicated df subset with
    | Raise e => Raise e
    | Return dup => getitem_mask df (map negb dup)
    end.

(** *** Sorting

    [sort_values(by=label, ascending=asc)] with the defaults
    [kind='quicksort'] and [na_position='last'].  The keys are split into the
    non-null values and the positions of the nulls; the non-null values are
    handed to numpy's [argsort]; the null positions are appended.  For a
    descending sort the non-null values are reversed before and the positions
    after the call. *)
Definition is_num (v : scalar) : bool := match v with Num _ => true | Str _ => false end.
Definition is_str (v : scalar) : bool := match v with Str _ => true | Num _ => false end.

(** The values can be compared with one another (sorting anything else stops
    with the [TypeError] of [py_lt]). *)
Definition comparable (l : list scalar) : bool := forallb is_num l || forallb is_str l.

Definition non_nans (items : list cell) : list scalar := omap id items.

Definition non_nan_idx (items : list cell) : list nat :=
  List.filter (fun i => notnull (nth i items None)) (seq 0 (length items)).

Definition nan_idx (items : list cell) : list nat := nonzero (map isnull items).

Definition nargsort (argsort : list scalar -> list nat) (items : list cell)
    (ascending : bool) : list nat :=
  let vals := if ascending then non_nans items else rev (non_nans items) in
  let pos := if ascending then non_nan_idx items else rev (non_nan_idx items) in
  let indexer := take_list 0%nat pos (argsort vals) in
  let indexer := if ascending then indexer else rev indexer in
  indexer ++ nan_idx items.

Definition sort_values (argsort : list scalar -> list nat) (df : DataFrame)
    (by_ : string) (ascending : bool) : result DataFrame :=
  match labelled by_ df with
  | [] => Raise KeyError
  | [k] =>
      if comparable (non_nans (snd k)) then
        Return (take df (nargsort argsort (snd k) ascending))
      else Raise TypeError
  | _ :: _ :: _ => Raise ValueError
  end.

(** What numpy promises of [argsort] whatever the [kind]: on values that can
    be compared, a permutation of the positions along which the values do not
    decrease.  Nothing is promised about equal values under 'quicksort'. *)
Definition le_at (vals : list scalar) (i j : nat) : Prop :=
  match vals !! i, vals !! j with
  | Some a, Some b => py_le a b = Return true
  | _, _ => False
  end.

Definition argsort_ok (argsort : list scalar -> list nat) : Prop :=
  forall vals, comparable vals = true ->
    Permutation (argsort vals) (seq 0 (length vals)) /\
    Sorted (le_at vals) (argsort vals).

(** *** Query

    [df.query(expr)] evaluates the expression with the library's engine
    ([eval_expr], which may raise) and hands the value to [df.loc[...]].
    A boolean value is a mask with one entry per row: the rows where it holds
    are kept.  Any other list of values is a list of row labels: for each
    value in turn, the rows whose label equals it are taken, so that a row can
    come out several times and the frame can grow; a value that is the label
    of no row is a [KeyError]. *)
Inductive selection : Type :=
  | Mask (mask : list bool)
  | Labels (labels : list cell).

(** The positions of the rows labelled [c]. *)
Definition locate (df : DataFrame) (c : cell) : list nat :=
  List.filter (fun i => bool_decide (c = Some (int (Z.of_nat (nth i (index df) 0%nat)))))
              (seq 0 (len df)).

(** [df.loc[labels]] *)
Definition loc_labels (df : DataFrame) (labels : list cell) : result DataFrame :=
  if forallb (fun c => negb (length (locate df c) =? 0)%nat) labels
  then Return (take df (flat_map (locate df) labels))
  else Raise KeyError.

Definition loc (df : DataFrame) (sel : selection) : result DataFrame :=
  match sel with
  | Mask mask => getitem_mask df mask
  | Labels labels => loc_labels df labels
  end.

Definition query (eval_expr : string -> DataFrame -> result selection)
    (df : DataFrame) (expr : string) : result DataFrame :=
  match eval_expr expr df with
  | Raise e => Raise e
  | Return sel => loc df sel
  end.

End pd.

Import pd.

(** ** Invariants of a Dataset *)

(** All columns have as many values as the frame has rows. *)
Definition wf (d : DataFrame) : Prop :=
  Forall (fun c => length (snd c) = len d) (columns d).

(** Column names are unique. *)
Definition unique_names (d : DataFrame) : Prop := NoDup (names d).

Global Instance wf_dec (d : DataFrame) : Decision (wf d).
Proof. unfold wf. apply _. Defined.

Global Instance unique_names_dec (d : DataFrame) : Decision (unique_names d).
Proof. unfold unique_names. apply _. Defined.

(** What the parser behind [pd.read_csv] builds from a delimited file: a
    frame with one value per record in every column, whose column names are
    the header fields with a repeated field renamed ([a], [a.1], ...), hence
    unique. *)
Record Table : Type := mkTable {
  frame : DataFrame;
  frame_wf : wf frame;
  frame_unique : unique_names frame
}.

(** ** The world around the script

    What the script obtains from libraries and from the operating system and
    does not compute itself: numpy's [argsort] behind [sort_values], the
    expression engine behind [query], the parser behind [pd.read_csv], the
    format name [Path(p).suffix.lower().replace('.', '')] of an output path,
    whether a write to a path goes through and, when it does not, whether it
    leaves a file at the path (the writers open the path before they write
    and do not remove it when they fail). *)
Inductive file_kind : Type := CsvFile | ExcelFile | JsonFile.

Class Env : Type := {
  argsort : list scalar -> list nat;
  eval_expr : string -> DataFrame -> result selection;
  parse_csv : string -> string -> string -> result Table;
  suffix_format : string -> string;
  write : file_kind -> string -> DataFrame -> result unit;
  leaves_file : file_kind -> string -> DataFrame -> bool
}.

(** [pd.read_csv(path, encoding=..., delimiter=..., low_memory=False)] *)
Definition read_csv {E : Env} (path encoding delimiter : string) : result DataFrame :=
  match parse_csv path encoding delimiter with
  | Return t => Return (frame t)
  | Raise e => Raise e
  end.

(** ** Logger and standard output *)
Inductive message : Type :=
  | Loading (path : string)
  | Loaded (n_rows n_columns : Z)
  | LoadFailed (e : exn)
  | ColumnsNotFound (missing : gset string)
  | SelectingColumns (col_list : list string)
  | ApplyingFilter (expr : string)
  | FilteredOut (filtered_rows remaining : Z)
  | FilterFailed (e : exn)
  | SortColumnNotFound (sort_column : string)
  | SortingBy (sort_column : string) (ascending : bool)
  | RemovedDuplicates (removed : Z)
  | NoMissingValues
  | FoundMissing (null_count : Z)
  | DroppedMissing
  | FilledMissing (fill_value : scalar)
  | SavingTo (path format : string)
  | UnsupportedFormat (format : string)
  | FileSaved
  | SaveFailed (e : exn)
  | Completed.

Inductive event : Type :=
  | Info (m : message)
  | Error (m : message)
  | PrintInfo (n_rows n_columns : Z) (per_column : list (string * Z))
  | PrintSummary (original final processed n_columns : Z).

(** ** The processor object and the monad of its methods *)
(** The attributes of the processor, and what the run has put on the disk:
    the [files] that a writer completed, with their format and content, and
    the paths of the [leftovers] of writes that failed. *)
Record state : Type := mkState {
  input_file : string;
  df : option DataFrame;
  original_rows : Z;
  files : list (string * file_kind * DataFrame);
  leftovers : list string
}.

(** [CSVProcessor(input_file)] *)
Definition init (input : string) : state :=
  {| input_file := input; df := None; original_rows := 0; files := [];
     leftovers := [] |}.

Definition set_df (d : DataFrame) (st : state) : state :=
  {| input_file := input_file st; df := Some d;
     original_rows := original_rows st; files := files st;
     leftovers := leftovers st |}.

Definition set_original_rows (n : Z) (st : state) : state :=
  {| input_file := input_file st; df := df st;
     original_rows := n; files := files st; leftovers := leftovers st |}.

Definition add_file (f : string * file_kind * DataFrame) (st : state) : state :=
  {| input_file := input_file st; df := df st;
     original_rows := original_rows st; files := files st ++ [f];
     leftovers := leftovers st |}.

Definition add_leftover (path : string) (st : state) : state :=
  {| input_file := input_file st; df := df st;
     original_rows := original_rows st; files := files st;
     leftovers := leftovers st ++ [path] |}.

(** The path holds a file. *)
Definition on_disk (path : string) (st : state) : bool :=
  existsb (fun f => String.eqb (fst (fst f)) path) (files st)
  || existsb (String.eqb path) (leftovers st).

(** A method runs on the object, ends with a value or an exception, and leaves
    the object and the events it emitted. *)
Definition M (A : Type) : Type := state -> result A * state * list event.

Definition ret {A : Type} (a : A) : M A := fun st => (Return a, st, []).

Definition bind {A B : Type} (m : M A) (k : A -> M B) : M B :=
  fun st =>
    match m st with
    | (Return a, st', out) =>
        match k a st' with
        | (r, st'', out') => (r, st'', out ++ out')
        end
    | (Raise e, st', out) => (Raise e, st', out)
    end.

Notation "x <- m ;; k" := (bind m (fun x => k))
  (at level 100, m at next level, right associativity).
Notation "m ;;; k" := (bind m (fun _ => k))
  (at level 100, right associativity).

Definition get : M state := fun st => (Return st, st, []).
Definition modify (f : state -> state) : M unit := fun st => (Return tt, f st, []).
Definition emit (e : event) : M unit := fun st => (Return tt, st, [e]).
Definition raise {A : Type} (e : exn) : M A := fun st => (Raise e, st, []).

Definition lift {A : Type} (r : result A) : M A :=
  match r with Return a => ret a | Raise e => raise e end.

(** [self.df] used as a frame.  Before a load it is [None]: an attribute
    access on it ([.columns], a frame method) is an [AttributeError], and
    [len(self.df)] a [TypeError]. *)
Definition frame_or (e : exn) : M DataFrame :=
  st <- get ;;
  match df st with
  | Some d => ret d
  | None => raise e
  end.

Definition self_df : M DataFrame := frame_or AttributeError.

Definition len_self_df : M Z :=
  d <- frame_or TypeError ;; ret (Z.of_nat (len d)).

(** [try: body / except Exception as e: handler e]; [SystemExit] is not an
    [Exception] and passes through. *)
Definition try_except {A : Type} (body : M A) (handler : exn -> M A) : M A :=
  fun st =>
    match body st with
    | (Raise (SystemExit c), st', out) => (Raise (SystemExit c), st', out)
    | (Raise e, st', out) =>
        match handler e st' with
        | (r, st'', out') => (r, st'', out ++ out')
        end
    | (Return a, st', out) => (Return a, st', out)
    end.

Definition when (b : bool) (m : M unit) : M unit := if b then m else ret tt.

Definition sys_exit {A : Type} (code : Z) : M A := raise (SystemExit code).

Definition zlen (d : DataFrame) : Z := Z.of_nat (len d).
Definition zcols (d : DataFrame) : Z := Z.of_nat (length (columns d)).

(** ** [class CSVProcessor] *)
Section CSVProcessor.

Context {E : Env}.

Definition load_csv (encoding delimiter : string) : M bool :=
  try_except
    (st <- get ;;
     emit (Info (Loading (input_file st))) ;;;
     d <- lift (read_csv (input_file st) encoding delimiter) ;;
     modify (set_df d) ;;;
     n <- len_self_df ;;
     modify (set_original_rows n) ;;;
     emit (Info (Loaded n (zcols d))) ;;;
     ret true)
    (fun e => emit (Error (LoadFailed e)) ;;; ret false).

(** The line of [show_info] for one label: [self.df[col]] is a single column
    only when the label is carried once; the column type shown by the source
    is not part of this model. *)
Fixpoint info_lines (d : DataFrame) (cols : list string) : result (list (string * Z)) :=
  match cols with
  | [] => Return []
  | col :: rest =>
      match labelled col d with
      | [c] =>
          match info_lines d rest with
          | Return ls => Return ((col, Z.of_nat (length (List.filter isnull (snd c)))) :: ls)
          | Raise e => Raise e
          end
      | _ => Raise AttributeError
      end
  end.

Definition show_info : M unit :=
  st <- get ;;
  match df st with
  | None => ret tt
  | Some d =>
      ls <- lift (info_lines d (names d)) ;;
      emit (PrintInfo (zlen d) (zcols d) ls)
  end.

Definition select_columns (columns : option string) : M (option bool) :=
  if negb (truthy columns) then ret None
  else
    let col_list := map strip (split "," (default "" columns)) in
    d <- self_df ;;
    let missing : gset string := list_to_set col_list ∖ list_to_set (names d) in
    if negb (bool_decide (missing = ∅)) then
      emit (Error (ColumnsNotFound missing)) ;;;
      ret (Some false)
    else
      emit (Info (SelectingColumns col_list)) ;;;
      d' <- lift (getitem_list d col_list) ;;
      modify (set_df d') ;;;
      ret (Some true).

Definition filter_rows (filter_expr : option string) : M bool :=
  if negb (truthy filter_expr) then ret true
  else
    let expr := default "" filter_expr in
    try_except
      (emit (Info (ApplyingFilter expr)) ;;;
       initial_rows <- len_self_df ;;
       d <- self_df ;;
       d' <- lift (query eval_expr d expr) ;;
       modify (set_df d') ;;;
       remaining <- len_self_df ;;
       let filtered_rows := initial_rows - remaining in
       emit (Info (FilteredOut filtered_rows remaining)) ;;;
       ret true)
      (fun e => emit (Error (FilterFailed e)) ;;; ret false).

Definition sort_data (sort_column : option string) (ascending : bool) : M bool :=
  if negb (truthy sort_column) then ret true
  else
    let col := default "" sort_column in
    d <- self_df ;;
    if negb (bool_decide (col ∈ names d)) then
      emit (Error (SortColumnNotFound col)) ;;;
      ret false
    else
      emit (Info (SortingBy col ascending)) ;;;
      d' <- lift (sort_values argsort d col ascending) ;;
      modify (set_df d') ;;;
      ret true.

Definition remove_duplicates (subset : option (list string)) : M bool :=
  initial_rows <- len_self_df ;;
  d <- self_df ;;
  d' <- lift (drop_duplicates d subset) ;;
  modify (set_df d') ;;;
  remaining <- len_self_df ;;
  let removed := initial_rows - remaining in
  when (0 <? removed) (emit (Info (RemovedDuplicates removed))) ;;;
  ret true.

Definition fill_missing (method : string) (value : option scalar) : M bool :=
  d <- self_df ;;
  let null_count := isnull_sum d in
  if null_count =? 0 then
    emit (Info NoMissingValues) ;;;
    ret true
  else
    emit (Info (FoundMissing null_count)) ;;;
    (if String.eqb method "drop" then
       modify (set_df (dropna d)) ;;;
       emit (Info DroppedMissing)
     else if String.eqb method "fill" then
       let fill_value := default (int 0) value in
       modify (set_df (fillna fill_value d)) ;;;
       emit (Info (FilledMissing fill_value))
     else ret tt) ;;;
    ret true.

Definition kind_of_format (file_format : string) : option file_kind :=
  if String.eqb file_format "csv" || String.eqb file_format "txt" then Some CsvFile
  else if String.eqb file_format "xlsx" || String.eqb file_format "excel" then Some ExcelFile
  else if String.eqb file_format "json" then Some JsonFile
  else None.

(** [self.df.to_csv(path, ...)], [to_excel], [to_json]: a write that goes
    through puts the frame at the path; a write that raises may leave a file
    there. *)
Definition to_file (kind : file_kind) (path : string) (d : DataFrame) : M unit :=
  match write kind path d with
  | Return _ => modify (add_file (path, kind, d))
  | Raise e =>
      when (leaves_file kind path d) (modify (add_leftover path)) ;;;
      raise e
  end.

(** [output_path.stat()]: an [OSError] when the path holds no file. *)
Definition stat (path : string) : M unit :=
  st <- get ;;
  if on_disk path st then ret tt else raise OSError.

Definition save_file (output_file : string) (file_format : option string) : M bool :=
  let file_format :=
    match file_format with
    | None => suffix_format output_file
    | Some f => f
    end in
  try_except
    (emit (Info (SavingTo output_file file_format)) ;;;
     match kind_of_format file_format with
     | Some kind =>
         d <- self_df ;;
         to_file kind output_file d ;;;
         stat output_file ;;;
         emit (Info FileSaved) ;;;
         ret true
     | None =>
         emit (Error (UnsupportedFormat file_format)) ;;;
         ret false
     end)
    (fun e => emit (Error (SaveFailed e)) ;;; ret false).

Definition show_summary : M unit :=
  st <- get ;;
  final <- len_self_df ;;
  d <- self_df ;;
  emit (PrintSummary (original_rows st) final (original_rows st - final) (zcols d)).

(** ** [main]

    The parsed command line; the parser admits only ['drop'] and ['fill'] as
    [fill_missing]. *)
Record Args : Type := mkArgs {
  input : string;
  output : string;
  columns_arg : option string;
  filter_arg : option string;
  sort : option string;
  descending : bool;
  remove_duplicates_flag : bool;
  fill_missing_arg : option string;
  fill_value : option string;
  info : bool;
  delimiter : string;
  encoding : string
}.

Definition main (args : Args) : M unit :=
  ok <- load_csv (encoding args) (delimiter args) ;;
  when (negb ok) (sys_exit 1) ;;;
  when (info args) (show_info ;;; sys_exit 0) ;;;
  when (truthy (columns_arg args))
    (r <- select_columns (columns_arg args) ;;
     when (negb (default false r)) (sys_exit 1)) ;;;
  when (truthy (filter_arg args))
    (r <- filter_rows (filter_arg args) ;;
     when (negb r) (sys_exit 1)) ;;;
  when (remove_duplicates_flag args)
    (_ <- remove_duplicates None ;; ret tt) ;;;
  when (truthy (fill_missing_arg args))
    (_ <- fill_missing (default "" (fill_missing_arg args)) (Str <$> fill_value args) ;;
     ret tt) ;;;
  when (truthy (sort args))
    (_ <- sort_data (sort args) (negb (descending args)) ;; ret tt) ;;;
  ok <- save_file (output args) None ;;
  when (negb ok) (sys_exit 1) ;;;
  show_summary ;;;
  emit (Info Completed).

(** The process: [main] on a fresh processor.  A normal return is status 0,
    [sys.exit(c)] is status [c], any other exception ends the interpreter
    with status 1. *)
Definition exit_status (r : result unit) : Z :=
  match r with
  | Return _ => 0
  | Raise (SystemExit c) => c
  | Raise _ => 1
  end.

Definition run (args : Args) : Z * state * list event :=
  match main args (init (input args)) with
  | (r, st, out) => (exit_status r, st, out)
  end.

End CSVProcessor.

(** Some cell of the frame is null. *)
Definition has_null (d : DataFrame) : Prop :=
  exists c, In c (columns d) /\ In None (snd c).

(** The processor once [load_csv] has read the frame [d]. *)
Definition loaded (args : Args) (d : DataFrame) : state :=
  set_original_rows (zlen d) (set_df d (init (input args))).

(** [col_list] and [missing] of [select_columns]. *)
Definition requested (columns : string) : list string :=
  map strip (split "," columns).

Definition missing_names (columns : string) (d : DataFrame) : gset string :=
  list_to_set (requested columns) ∖ list_to_set (names d).

(** ** A concrete world

    One world in which the script can be run: a stable insertion sort for
    [argsort] (and, for comparison, a second one that also sorts but returns
    equal values in the opposite order), an engine that understands three
    forms of filter over one column, a file system holding two input files
    whose columns are integers and strings, and writes that succeed; and the
    same world with a disk that is full. *)
Module World.

Definition le_posb (vals : list scalar) (i j : nat) : bool :=
  match vals !! i, vals !! j with
  | Some a, Some b =>
      match py_le a b with
      | Return b => b
      | Raise _ => true
      end
  | _, _ => true
  end.

Definition le_pos (vals : list scalar) : relation nat :=
  fun i j => le_posb vals i j = true.

(** Insertion sort on positions: a position goes in front of the first
    position whose value is not smaller, so that among equal values the
    positions inserted later come first. *)
Fixpoint insert_pos (vals : list scalar) (i : nat) (l : list nat) : list nat :=
  match l with
  | [] => [i]
  | j :: l' => if le_posb vals i j then i :: j :: l' else j :: insert_pos vals i l'
  end.

Definition sort_positions (vals : list scalar) (start : list nat) : list nat :=
  fold_right (insert_pos vals) [] start.

(** Positions inserted from the last to the first: equal values keep their
    original order. *)
Definition stable_argsort (vals : list scalar) : list nat :=
  sort_positions vals (seq 0 (length vals)).

(** Positions inserted from the first to the last: equal values come out in
    the opposite order. *)
Definition reversing_argsort (vals : list scalar) : list nat :=
  sort_positions vals (rev (seq 0 (length vals))).

(** The column that a name of the expression stands for; a name that is no
    column of the frame is undefined. *)
Definition column_of (name : string) (d : DataFrame) : result (list cell) :=
  match labelled name d with
  | [] => Raise (EvalError "name is not defined")
  | [c] => Return (snd c)
  | _ :: _ :: _ => Raise ValueError
  end.

(** [x > 0] on one cell: a null compares false. *)
Definition positive (c : cell) : bool :=
  match c with
  | Some (Num x) => bool_decide (0 < x)%Qc
  | _ => false
  end.

(** The engine: [name > 0] is a comparison, whose value is a boolean mask
    (comparing a string with a number is a [TypeError]); [name] is the column
    itself and [name.repeat(2)] the column with every value twice.  The
    columns of this world hold integers and strings (a column of 0 and 1 is
    an integer column, as the parser types it), so the value of the last two
    forms is never a boolean mask. *)
Definition column_eval (expr : string) (d : DataFrame) : result selection :=
  match split "." expr with
  | [name; method] =>
      if String.eqb method "repeat(2)" then
        match column_of (strip name) d with
        | Return col => Return (Labels (flat_map (fun c => [c; c]) col))
        | Raise e => Raise e
        end
      else Raise (EvalError "invalid syntax")
  | _ =>
      match map strip (split ">" expr) with
      | [name] =>
          match column_of name d with
          | Return col => Return (Labels col)
          | Raise e => Raise e
          end
      | [name; bound] =>
          if String.eqb bound "0" then
            match column_of name d with
            | Return col =>
                if existsb is_str (non_nans col) then Raise TypeError
                else Return (Mask (map positive col))
            | Raise e => Raise e
            end
          else Raise (EvalError "invalid syntax")
      | _ => Raise (EvalError "invalid syntax")
      end
  end.

Definition people : DataFrame :=
  {| index := [0; 1; 2; 3]%nat;
     columns :=
       [ ("id", [Some (int 1); Some (int 2); Some (int 2); Some (int 3)]);
         ("name", [Some (Str "ann"); None; Some (Str "bob"); Some (Str "bob")]);
         ("active", [Some (int 1); Some (int 0); Some (int 1); Some (int 1)]) ] |}.

(** The file of the scenario [a,b / 1,x / 2, / 2,x]. *)
Definition ab : DataFrame :=
  {| index := [0; 1; 2]%nat;
     columns :=
       [ ("a", [Some (int 1); Some (int 2); Some (int 2)]);
         ("b", [Some (Str "x"); None; Some (Str "x")]) ] |}.

Definition people_table : Table :=
  {| frame := people;
     frame_wf := bool_decide_unpack (wf people) I;
     frame_unique := bool_decide_unpack (unique_names people) I |}.

Definition ab_table : Table :=
  {| frame := ab;
     frame_wf := bool_decide_unpack (wf ab) I;
     frame_unique := bool_decide_unpack (unique_names ab) I |}.

Definition read_people (path encoding delimiter : string) : result Table :=
  if String.eqb path "people.csv" then Return people_table
  else if String.eqb path "ab.csv" then Return ab_table
  else Raise OSError.

(** [str.lower] on one character (code points below 256). *)
Definition lower_char (c : ascii) : ascii :=
  let n := nat_of_ascii c in
  if ((65 <=? n) && (n <=? 90)
      || (192 <=? n) && (n <=? 222) && negb (n =? 215))%nat
  then ascii_of_nat (n + 32) else c.

Definition lower (s : string) : string :=
  string_of_list_ascii (map lower_char (list_ascii_of_string s)).

(** [Path(path).suffix.lower().replace('.', '')]: the name is the last
    component of the path; its suffix starts at its last dot, unless the name
    has no dot, starts with its only dot or ends with a dot. *)
Definition format_of_path (path : string) : string :=
  let parts :=
    List.filter (fun p => negb (String.eqb p "" || String.eqb p "."))
                (split "/" path) in
  match split "." (List.last parts "") with
  | [] | [_] => ""
  | [stem; ext] => if String.eqb stem "" then "" else lower ext
  | fields => lower (List.last fields "")
  end.

Definition world : Env :=
  {| argsort := stable_argsort;
     eval_expr := column_eval;
     parse_csv := read_people;
     suffix_format := format_of_path;
     write := fun _ _ _ => Return tt;
     leaves_file := fun _ _ _ => false |}.

(** The same world when the disk is full: a writer creates the file and
    fails while writing it. *)
Definition full_disk : Env :=
  {| argsort := stable_argsort;
     eval_expr := column_eval;
     parse_csv := read_people;
     suffix_format := format_of_path;
     write := fun _ _ _ => Raise OSError;
     leaves_file := fun _ _ _ => true |}.

(** The processor after loading [people]. *)
Definition ready : state :=
  {| input_file := "people.csv"; df := Some people; original_rows := 4;
     files := []; leftovers := [] |}.

(** Select [a,b], deduplicate, fill with [N/A], sort by [a]. *)
Definition scenario : Args :=
  {| input := "ab.csv"; output := "out.csv"; columns_arg := Some "a,b";
     filter_arg := None; sort := Some "a"; descending := false;
     remove_duplicates_flag := true; fill_missing_arg := Some "fill";
     fill_value := Some "N/A"; info := false; delimiter := ","; encoding := "utf-8" |}.

(** [--sort zip] on a file without a column [zip]. *)
Definition sort_by_zip : Args :=
  {| input := "people.csv"; output := "out.csv"; columns_arg := None;
     filter_arg := None; sort := Some "zip"; descending := false;
     remove_duplicates_flag := false; fill_missing_arg := None;
     fill_value := None; info := false; delimiter := ","; encoding := "utf-8" |}.

(** No stage requested. *)
Definition plain : Args :=
  {| input := "people.csv"; output := "out.csv"; columns_arg := None;
     filter_arg := None; sort := None; descending := false;
     remove_duplicates_flag := false; fill_missing_arg := None;
     fill_value := None; info := false; delimiter := ","; encoding := "utf-8" |}.

(** An input file that does not exist. *)
Definition missing_input : Args :=
  {| input := "nowhere.csv"; output := "out.csv"; columns_arg := None;
     filter_arg := None; sort := None; descending := false;
     remove_duplicates_flag := false; fill_missing_arg := None;
     fill_value := None; info := false; delimiter := ","; encoding := "utf-8" |}.

(** [--info] together with a selection and a sort that would both fail. *)
Definition info_only : Args :=
  {| input := "people.csv"; output := "out.csv"; columns_arg := Some "zip";
     filter_arg := None; sort := Some "zip"; descending := false;
     remove_duplicates_flag := true; fill_missing_arg := Some "drop";
     fill_value := None; info := true; delimiter := ","; encoding := "utf-8" |}.

(** [--filter zip] on a file without a column [zip]. *)
Definition filter_by_zip : Args :=
  {| input := "people.csv"; output := "out.csv"; columns_arg := None;
     filter_arg := Some "zip"; sort := None; descending := false;
     remove_duplicates_flag := false; fill_missing_arg := None;
     fill_value := None; info := false; delimiter := ","; encoding := "utf-8" |}.

(** [--filter id]: the values of the integer column [id] taken as row labels. *)
Definition filter_by_id : Args :=
  {| input := "people.csv"; output := "out.csv"; columns_arg := None;
     filter_arg := Some "id"; sort := None; descending := false;
     remove_duplicates_flag := false; fill_missing_arg := None;
     fill_value := None; info := false; delimiter := ","; encoding := "utf-8" |}.

End World.

(** The subsets of column names that [remove_duplicates] is given: none (all
    columns), or a non-empty list of names of the frame. *)
Definition valid_subset (d : DataFrame) (subset : option (list string)) : Prop :=
  match subset with
  | None => True
  | Some l => l <> [] /\ forall c, In c l -> In c (names d)
  end.



(** ** Specifications of methods *)

(** An exception that [except Exception] catches: anything but [SystemExit]. *)
Definition is_exception (e : exn) : Prop := forall c, e <> SystemExit c.

(** The libraries never end the process themselves: what [read_csv], the
    expression engine and the writers raise is an [Exception]. *)
Definition well_behaved (E : Env) : Prop :=
  (forall path encoding delimiter e,
      read_csv path encoding delimiter = Raise e -> is_exception e) /\
  (forall expr d e, eval_expr expr d = Raise e -> is_exception e) /\
  (forall kind path d e, write kind path d = Raise e -> is_exception e).

(** From a processor satisfying [P], however [m] ends, its result and the
    processor it leaves satisfy [Q]. *)
Definition ensures {A : Type} (P : state -> Prop) (m : M A)
    (Q : result A -> state -> Prop) : Prop :=
  forall st r st' out, P st -> m st = (r, st', out) -> Q r st'.

(** [m] leaves the disk as it is and does not end the process. *)
Definition quiet {A : Type} (m : M A) : Prop :=
  forall st r st' out, m st = (r, st', out) ->
    files st' = files st /\ leftovers st' = leftovers st /\
    forall c, r <> Raise (SystemExit c).

(** The run has put nothing on the disk. *)
Definition clean_disk (st : state) : Prop := files st = [] /\ leftovers st = [].

(** The disk after a save that reported success, and after one that did
    not. *)
Definition saved {E : Env} (args : Args) (st : state) : Prop :=
  leftovers st = [] /\
  exists kind d,
    files st = [(output args, kind, d)] /\ df st = Some d /\
    kind_of_format (suffix_format (output args)) = Some kind /\
    write kind (output args) d = Return tt.

Definition not_saved {E : Env} (args : Args) (st : state) : Prop :=
  files st = [] /\
  (leftovers st = [] \/
   leftovers st = [output args] /\
   exists kind d e,
     df st = Some d /\ write kind (output args) d = Raise e /\
     leaves_file kind (output args) d = true).

(** What [main] has done when it ends: after a normal return the run was not
    info-only and the one file on the disk holds the frame of the processor,
    in the format of the output path; [sys.exit] was called with 0 by an
    info-only run, which leaves nothing on the disk, or with 1, and then the
    disk holds at most what a failed write left at the output path; an
    exception that escapes leaves nothing on the disk. *)
Definition main_post {E : Env} (args : Args) (r : result unit) (st : state) : Prop :=
  match r with
  | Return _ =>
      info args = false /\ leftovers st = [] /\
      exists kind d,
        files st = [(output args, kind, d)] /\ df st = Some d /\
        kind_of_format (suffix_format (output args)) = Some kind /\
        write kind (output args) d = Return tt
  | Raise (SystemExit c) =>
      files st = [] /\
      ((c = 0 /\ info args = true /\ leftovers st = []) \/
       (c = 1 /\ (leftovers st = [] \/
                  leftovers st = [output args] /\
                  exists kind d e,
                    df st = Some d /\ write kind (output args) d = Raise e /\
                    leaves_file kind (output args) d = true)))
  | Raise _ => clean_disk st
  end.

(** The number of nulls of each column, as [show_info] prints it. *)
Definition null_counts (d : DataFrame) : list (string * Z) :=
  map (fun c => (fst c, Z.of_nat (length (List.filter isnull (snd c))))) (columns d).





(** The string neither starts nor ends with a whitespace character. *)
Definition trimmed (s : string) : Prop :=
  forall c : ascii, isspace c = true ->
    forall rest,
      list_ascii_of_string s <> c :: rest /\
      list_ascii_of_string s <> rest ++ [c].

(** All characters are whitespace. *)
Definition blank (l : list ascii) : Prop := Forall (fun c => isspace c = true) l.

(** * Properties *)

(** ** Python strings *)
Example split_keeps_empty : split "," "a,,b" = ["a"; ""; "b"].
Proof. reflexivity. Qed.

Example strip_both_sides : strip "  id " = "id".
Proof. reflexivity. Qed.

(** ** Facts about positions, masks and rows *)
Section Positions.

Context {A : Type}.

Lemma length_take_list (dflt : A) (l : list A) (idx : list nat) :
  length (take_list dflt l idx) = length idx.
Proof. unfold take_list. apply length_map. Qed.

Lemma nth_take_list (dflt : A) (l : list A) (idx : list nat) (j : nat) :
  (j < length idx)%nat ->
  nth j (take_list dflt l idx) dflt = nth (nth j idx 0%nat) l dflt.
Proof.
  intros Hj. unfold take_list.
  rewrite (nth_indep _ dflt (nth 0 l dflt)) by (rewrite length_map; exact Hj).
  apply (map_nth (fun i => nth i l dflt)).
Qed.

Lemma take_list_seq (dflt : A) (l : list A) :
  take_list dflt l (seq 0 (length l)) = l.
Proof.
  apply (nth_ext _ _ dflt dflt).
  - rewrite length_take_list. apply length_seq.
  - intros j Hj. rewrite length_take_list, length_seq in Hj.
    rewrite nth_take_list by (rewrite length_seq; exact Hj).
    rewrite seq_nth by exact Hj. reflexivity.
Qed.


Lemma map_filter_commute {B : Type} (f : A -> B) (p : B -> bool) (l : list A) :
  map f (List.filter (fun x => p (f x)) l) = List.filter p (map f l).
Proof.
  induction l as [|x l IH]; [reflexivity|].
  cbn [List.filter map]. destruct (p (f x)); cbn [map]; rewrite IH; reflexivity.
Qed.

End Positions.

Lemma length_filter_le {A : Type} (p : A -> bool) (l : list A) :
  (length (List.filter p l) <= length l)%nat.
Proof.
  induction l as [|x l IH]; cbn [List.filter length]; [lia|].
  destruct (p x); cbn [length]; lia.
Qed.

Lemma length_nonzero_le (mask : list bool) :
  (length (nonzero mask) <= length mask)%nat.
Proof.
  unfold nonzero. etransitivity; [apply length_filter_le|].
  rewrite length_seq. reflexivity.
Qed.

Lemma In_nonzero (mask : list bool) (i : nat) :
  In i (nonzero mask) <-> (i < length mask)%nat /\ nth i mask false = true.
Proof.
  unfold nonzero. rewrite filter_In, in_seq. intuition lia.
Qed.

(** The positions of a mask come in increasing order. *)
Lemma filter_seq_increasing (p : nat -> bool) (a n : nat) :
  StronglySorted lt (List.filter p (seq a n)).
Proof.
  revert a. induction n as [|n IH]; intros a; cbn [seq List.filter].
  - constructor.
  - destruct (p a).
    + constructor; [apply IH|].
      apply List.Forall_forall. intros x Hx. apply filter_In in Hx as [Hx _].
      apply in_seq in Hx. lia.
    + apply IH.
Qed.

(** *** [take] on a frame *)
Lemma len_take (d : DataFrame) (idx : list nat) : len (take d idx) = length idx.
Proof. unfold len, take. cbn. apply length_take_list. Qed.

Lemma names_take (d : DataFrame) (idx : list nat) : names (take d idx) = names d.
Proof.
  unfold names, take. cbn. rewrite map_map. reflexivity.
Qed.

Lemma wf_take (d : DataFrame) (idx : list nat) : wf (take d idx).
Proof.
  unfold wf. rewrite len_take. unfold take. cbn.
  apply Forall_map, List.Forall_forall. intros c _. cbn. apply length_take_list.
Qed.



Lemma take_all (d : DataFrame) : wf d -> take d (seq 0 (len d)) = d.
Proof.
  intros Hwf. destruct d as [ix cols]. unfold wf, take, len in *.
  cbn [index columns] in *.
  f_equal; [apply take_list_seq|].
  induction Hwf as [|c cols Hc _ IH]; [reflexivity|].
  cbn [map]. rewrite IH. f_equal.
  destruct c as [name vals]. cbn [fst snd] in *. rewrite <- Hc.
  rewrite take_list_seq. reflexivity.
Qed.

Lemma set_df_same (st : state) (d : DataFrame) : df st = Some d -> set_df d st = st.
Proof. destruct st. cbn. intros ->. reflexivity. Qed.

Lemma df_set_df (st : state) (d : DataFrame) : df (set_df d st) = Some d.
Proof. reflexivity. Qed.

(** ** Running the monad *)
Ltac unfold_monad :=
  unfold self_df, len_self_df, frame_or, lift, when, sys_exit, try_except,
    bind, get, modify, emit, raise, ret in *.

Ltac run_monad := unfold_monad; cbn.

(** ** Null cells *)
Lemma no_null_in_list (l : list cell) :
  length (List.filter isnull l) = 0%nat <-> ~ In None l.
Proof.
  induction l as [|c l IH]; cbn [List.filter In length].
  - tauto.
  - destruct c as [v|]; cbn [isnull length].
    + rewrite IH. split; [intros H [Hc|Hc]; [discriminate|tauto] | tauto].
    + split; [discriminate|]. intros H. exfalso. apply H. left. reflexivity.
Qed.

Lemma isnull_sum_zero (d : DataFrame) : isnull_sum d = 0 <-> ~ has_null d.
Proof.
  unfold isnull_sum, has_null, list_sum.
  induction (columns d) as [|c cols IH]; cbn [map fold_right In].
  - split; [intros _ [c [[] _]] | reflexivity].
  - split.
    + intros H [c' [[<-|Hin] Hnull]].
      * assert (Hz : length (List.filter isnull (snd c)) = 0%nat) by lia.
        apply no_null_in_list in Hz. tauto.
      * apply IH; [lia|]. exists c'. tauto.
    + intros H.
      assert (Hc : length (List.filter isnull (snd c)) = 0%nat).
      { apply no_null_in_list. intros Hn. apply H. exists c. tauto. }
      assert (Hr : Z.of_nat (fold_right Nat.add 0%nat
                (map (fun c => length (List.filter isnull (snd c))) cols)) = 0).
      { apply IH. intros [c' [Hin Hn]]. apply H. exists c'. tauto. }
      lia.
Qed.

Lemma isnull_sum_nonneg (d : DataFrame) : 0 <= isnull_sum d.
Proof. unfold isnull_sum. lia. Qed.


Section FillMissing.

Context {E : Env}.

Lemma fill_missing_no_null (st : state) (d : DataFrame) (method : string)
    (value : option scalar) :
  df st = Some d -> ~ has_null d ->
  fill_missing method value st = (Return true, st, [Info NoMissingValues]).
Proof.
  intros Hdf Hnull. apply isnull_sum_zero in Hnull.
  unfold fill_missing. run_monad. rewrite Hdf. cbn. rewrite Hnull. reflexivity.
Qed.

Lemma fill_missing_drop (st : state) (d : DataFrame) (value : option scalar) :
  df st = Some d -> isnull_sum d <> 0 ->
  fill_missing "drop" value st =
    (Return true, set_df (dropna d) st,
     [Info (FoundMissing (isnull_sum d)); Info DroppedMissing]).
Proof.
  intros Hdf Hnull.
  assert (Hz : (isnull_sum d =? 0) = false) by (apply Z.eqb_neq; exact Hnull).
  unfold fill_missing. run_monad. rewrite Hdf. cbn. rewrite Hz. reflexivity.
Qed.

Lemma fill_missing_fill (st : state) (d : DataFrame) (value : option scalar) :
  df st = Some d -> isnull_sum d <> 0 ->
  fill_missing "fill" value st =
    (Return true, set_df (fillna (default (int 0) value) d) st,
     [Info (FoundMissing (isnull_sum d));
      Info (FilledMissing (default (int 0) value))]).
Proof.
  intros Hdf Hnull.
  assert (Hz : (isnull_sum d =? 0) = false) by (apply Z.eqb_neq; exact Hnull).
  unfold fill_missing. run_monad. rewrite Hdf. cbn. rewrite Hz. reflexivity.
Qed.

Lemma fill_missing_other (st : state) (d : DataFrame) (method : string)
    (value : option scalar) :
  df st = Some d -> isnull_sum d <> 0 -> method <> "drop" -> method <> "fill" ->
  fill_missing method value st =
    (Return true, st, [Info (FoundMissing (isnull_sum d))]).
Proof.
  intros Hdf Hnull Hdrop Hfill.
  assert (Hz : (isnull_sum d =? 0) = false) by (apply Z.eqb_neq; exact Hnull).
  apply String.eqb_neq in Hdrop, Hfill.
  unfold fill_missing. run_monad. rewrite Hdf. cbn. rewrite Hz, Hdrop, Hfill.
  reflexivity.
Qed.

End FillMissing.


Lemma nth_map_in_range {A B : Type} (f : A -> B) (l : list A) (i : nat) (a : A) (b : B) :
  (i < length l)%nat -> nth i (map f l) b = f (nth i l a).
Proof.
  intros Hi. rewrite (nth_indep _ b (f a)) by (rewrite length_map; exact Hi).
  apply map_nth.
Qed.



Lemma names_fillna (v : scalar) (d : DataFrame) : names (fillna v d) = names d.
Proof. unfold names, fillna. cbn [columns]. rewrite map_map. reflexivity. Qed.



Lemma filter_all_true {A : Type} (p : A -> bool) (l : list A) :
  (forall x, In x l -> p x = true) -> List.filter p l = l.
Proof.
  induction l as [|x l IH]; intros H; [reflexivity|].
  cbn [List.filter]. rewrite (H x (or_introl eq_refl)). f_equal.
  apply IH. intros y Hy. apply H. right. exact Hy.
Qed.



(** * The missing-value stage *)

Lemma has_null_sum (d : DataFrame) : has_null d -> isnull_sum d <> 0.
Proof. intros Hnull Hz. apply isnull_sum_zero in Hz. exact (Hz Hnull). Qed.






(** C10.  With a null cell in the frame and a method other than 'drop' and
    'fill', [fill_missing] returns [True], logs only the number of nulls
    found, and leaves the processor, hence the frame, as it was. *)
Theorem fill_missing_unknown_method {E : Env} (st : state) (d : DataFrame)
    (method : string) (value : option scalar) :
  df st = Some d -> has_null d -> method <> "drop" -> method <> "fill" ->
  fill_missing method value st =
    (Return true, st, [Info (FoundMissing (isnull_sum d))]).
Proof.
  intros Hdf Hnull Hdrop Hfill.
  apply fill_missing_other; [exact Hdf|apply has_null_sum, Hnull|exact Hdrop|exact Hfill].
Qed.

(** * Running [main] *)
Lemma bind_return {A B : Type} (m : M A) (k : A -> M B) (st st' : state)
    (a : A) (out : list event) :
  m st = (Return a, st', out) ->
  bind m k st = match k a st' with (r, st'', out') => (r, st'', out ++ out') end.
Proof. intros H. unfold bind. rewrite H. reflexivity. Qed.

Lemma bind_raise {A B : Type} (m : M A) (k : A -> M B) (st st' : state)
    (e : exn) (out : list event) :
  m st = (Raise e, st', out) -> bind m k st = (Raise e, st', out).
Proof. intros H. unfold bind. rewrite H. reflexivity. Qed.

Lemma bind_ret_l {A B : Type} (a : A) (k : A -> M B) (st : state) :
  bind (ret a) k st = k a st.
Proof. unfold bind, ret. destruct (k a st) as [[r st'] out]. reflexivity. Qed.

Section Load.

Context {E : Env}.

Lemma load_csv_ok (st : state) (d : DataFrame) (encoding delimiter : string) :
  read_csv (input_file st) encoding delimiter = Return d ->
  load_csv encoding delimiter st =
    (Return true, set_original_rows (zlen d) (set_df d st),
     [Info (Loading (input_file st)); Info (Loaded (zlen d) (zcols d))]).
Proof.
  intros Hread. unfold load_csv. run_monad. rewrite Hread. reflexivity.
Qed.

End Load.

(** * Column selection *)
Section Select.

Context {E : Env}.

Lemma elem_of_missing_names (columns : string) (d : DataFrame) (c : string) :
  c ∈ missing_names columns d <-> In c (requested columns) /\ ~ In c (names d).
Proof.
  unfold missing_names. rewrite elem_of_difference, !elem_of_list_to_set.
  rewrite !list_elem_of_In. reflexivity.
Qed.

Lemma truthy_Some (s : string) : s <> "" -> truthy (Some s) = true.
Proof.
  intros Hs. unfold truthy. apply negb_true_iff, String.eqb_neq. exact Hs.
Qed.

Lemma select_columns_missing (st : state) (d : DataFrame) (columns : string) :
  df st = Some d -> columns <> "" -> missing_names columns d <> ∅ ->
  select_columns (Some columns) st =
    (Return (Some false), st, [Error (ColumnsNotFound (missing_names columns d))]).
Proof.
  intros Hdf Hcols Hmiss. unfold select_columns.
  rewrite (truthy_Some columns Hcols). cbn [negb default].
  run_monad. rewrite Hdf. cbn.
  fold (requested columns). fold (missing_names columns d).
  rewrite bool_decide_eq_false_2 by exact Hmiss. reflexivity.
Qed.

End Select.

Section SelectMain.

Context {E : Env}.

Lemma main_select_missing (args : Args) (d : DataFrame) (columns : string) :
  read_csv (input args) (encoding args) (delimiter args) = Return d ->
  info args = false ->
  columns_arg args = Some columns -> columns <> "" ->
  missing_names columns d <> ∅ ->
  run args =
    (1, loaded args d,
     [Info (Loading (input args)); Info (Loaded (zlen d) (zcols d));
      Error (ColumnsNotFound (missing_names columns d))]).
Proof.
  intros Hread Hinfo Hcols Hne Hmiss.
  assert (Hsel : (r <- select_columns (Some columns) ;;
                  when (negb (default false r)) (sys_exit 1)) (loaded args d) =
                 (Raise (SystemExit 1), loaded args d,
                  [Error (ColumnsNotFound (missing_names columns d))])).
  { rewrite (bind_return _ _ _ _ _ _
               (select_columns_missing (loaded args d) d columns eq_refl Hne Hmiss)).
    reflexivity. }
  unfold run, main.
  rewrite (bind_return _ _ _ _ _ _ (load_csv_ok (init (input args)) d _ _ Hread)).
  fold (loaded args d).
  rewrite Hinfo, Hcols, (truthy_Some columns Hne).
  cbn [negb when]. rewrite !bind_ret_l.
  rewrite (bind_raise _ _ _ _ _ _ Hsel). reflexivity.
Qed.

End SelectMain.

(** C4.  When some requested name is not a column of the frame,
    [select_columns] returns [False], logs one error carrying the set of all
    requested names that are missing, and leaves the processor as it was; and
    a run of [main] that requests this selection on the loaded frame stops
    with exit status 1, the frame still as loaded and no file written. *)
Theorem select_columns_reports_all_missing {E : Env} (st : state) (d : DataFrame)
    (columns : string) :
  df st = Some d -> columns <> "" ->
  (exists c, In c (requested columns) /\ ~ In c (names d)) ->
  exists missing : gset string,
    (forall c, c ∈ missing <-> In c (requested columns) /\ ~ In c (names d)) /\
    select_columns (Some columns) st =
      (Return (Some false), st, [Error (ColumnsNotFound missing)]) /\
    (forall args,
        read_csv (input args) (encoding args) (delimiter args) = Return d ->
        info args = false ->
        columns_arg args = Some columns ->
        exists st' out,
          run args = (1, st', out) /\ df st' = Some d /\ files st' = [] /\
          In (Error (ColumnsNotFound missing)) out).
Proof.
  intros Hdf Hne [c Hc].
  assert (Hmiss : missing_names columns d <> ∅).
  { intros Hempty. apply elem_of_missing_names in Hc.
    rewrite Hempty in Hc. exact (not_elem_of_empty c Hc). }
  exists (missing_names columns d). split; [|split].
  - intros c'. apply elem_of_missing_names.
  - apply select_columns_missing; assumption.
  - intros args Hread Hinfo Hcols.
    eexists _, _. split; [|split; [|split]].
    + apply (main_select_missing args d columns); assumption.
    + reflexivity.
    + reflexivity.
    + cbn. tauto.
Qed.

(** * Row filter *)
Lemma len_getitem_mask (d d' : DataFrame) (mask : list bool) :
  getitem_mask d mask = Return d' -> (len d' <= len d)%nat.
Proof.
  unfold getitem_mask. destruct (length mask =? len d)%nat eqn:Hlen; [|discriminate].
  intros [= <-]. rewrite len_take. apply Nat.eqb_eq in Hlen. rewrite <- Hlen.
  apply length_nonzero_le.
Qed.

Lemma query_mask {E : Env} (d d' : DataFrame) (expr : string) (mask : list bool) :
  eval_expr expr d = Return (Mask mask) ->
  query eval_expr d expr = Return d' ->
  length mask = len d /\ d' = take d (nonzero mask).
Proof.
  unfold query. intros ->. cbn [loc]. unfold getitem_mask.
  destruct (length mask =? len d)%nat eqn:Hlen; [|discriminate].
  intros [= <-]. apply Nat.eqb_eq in Hlen. split; [exact Hlen|reflexivity].
Qed.

Lemma query_labels {E : Env} (d d' : DataFrame) (expr : string) (labels : list cell) :
  eval_expr expr d = Return (Labels labels) ->
  query eval_expr d expr = Return d' ->
  d' = take d (flat_map (locate d) labels).
Proof.
  unfold query. intros ->. cbn [loc]. unfold loc_labels.
  destruct (forallb _ labels); [|discriminate]. intros [= <-]. reflexivity.
Qed.

(** C8, as amended.  Whenever [filter_rows] returns [True], every "Filtered
    out ... rows, ... remaining" record it logged carries the new row count
    and a removed count that add up to the old row count, and such a record is
    logged whenever a filter expression was given; without a filter
    expression the frame is left as it was; and when the expression evaluates
    to a boolean mask, the mask has one entry per row, the frame left holds
    the rows where the mask is true, in their order, and has no more rows
    than the frame found.  When the expression evaluates to anything else the
    values select rows by label. *)
Theorem filter_rows_counts {E : Env} (st st' : state) (d : DataFrame)
    (filter_expr : option string) (out : list event) :
  df st = Some d ->
  filter_rows filter_expr st = (Return true, st', out) ->
  exists d',
    df st' = Some d' /\
    (forall filtered_rows remaining,
        In (Info (FilteredOut filtered_rows remaining)) out ->
        remaining = zlen d' /\ remaining + filtered_rows = zlen d) /\
    (truthy filter_expr = true ->
     In (Info (FilteredOut (zlen d - zlen d') (zlen d'))) out) /\
    (truthy filter_expr = false -> d' = d) /\
    (forall mask,
        truthy filter_expr = true ->
        eval_expr (default "" filter_expr) d = Return (Mask mask) ->
        length mask = len d /\ d' = take d (nonzero mask) /\
        (len d' <= len d)%nat) /\
    (forall labels,
        truthy filter_expr = true ->
        eval_expr (default "" filter_expr) d = Return (Labels labels) ->
        d' = take d (flat_map (locate d) labels)).
Proof.
  intros Hdf Hrun. unfold filter_rows in Hrun.
  destruct (truthy filter_expr) eqn:Htruthy; cbn [negb] in Hrun.
  - run_monad. repeat (rewrite Hdf in Hrun; cbn in Hrun).
    destruct (query eval_expr d (default "" filter_expr)) as [d'|e] eqn:Hq;
      cbn in Hrun.
    + injection Hrun as <- <-. exists d'. split; [reflexivity|].
      split; [|split; [|split; [|split]]].
      * intros filtered_rows remaining [Hin|[Hin|[]]]; [discriminate|].
        injection Hin as <- <-. unfold zlen. split; [reflexivity|lia].
      * intros _. right. left. reflexivity.
      * discriminate.
      * intros mask _ Hmask.
        destruct (query_mask d d' _ mask Hmask Hq) as [Hlen ->].
        split; [exact Hlen|]. split; [reflexivity|].
        rewrite len_take, <- Hlen. apply length_nonzero_le.
      * intros labels _ Hlabels. exact (query_labels d d' _ labels Hlabels Hq).
    + destruct e; discriminate.
  - run_monad. injection Hrun as <- <-. exists d. split; [exact Hdf|].
    split; [intros ? ? []|]. split; [discriminate|]. split; [reflexivity|].
    split; discriminate.
Qed.

(** * Deduplication *)
Lemma length_mark_seen (seen : gset (list cell)) (keys : list (list cell)) :
  length (mark_seen seen keys) = length keys.
Proof.
  revert seen. induction keys as [|k ks IH]; intros seen; [reflexivity|].
  cbn [mark_seen]. destruct (decide (k ∈ seen)); cbn [length]; rewrite IH; reflexivity.
Qed.

(** A key is marked exactly when it was seen before the scan or earlier in
    the scan. *)
Lemma nth_mark_seen (seen : gset (list cell)) (keys : list (list cell)) (i : nat) :
  (i < length keys)%nat ->
  nth i (mark_seen seen keys) false = true <->
  (nth i keys [] ∈ seen \/ exists j, (j < i)%nat /\ nth j keys [] = nth i keys []).
Proof.
  revert seen i. induction keys as [|k ks IH]; intros seen i Hi; [cbn in Hi; lia|].
  cbn [length] in Hi. cbn [mark_seen].
  destruct i as [|i].
  - destruct (decide (k ∈ seen)) as [Hin|Hnin]; cbn [nth].
    + split; [intros _; left; exact Hin|reflexivity].
    + split; [discriminate|]. intros [Hin|[j [Hj _]]]; [contradiction|lia].
  - assert (Hi' : (i < length ks)%nat) by lia.
    destruct (decide (k ∈ seen)) as [Hin|Hnin]; cbn [nth]; rewrite (IH _ i Hi').
    + split.
      * intros [Hs|[j [Hj Heq]]]; [left; exact Hs|].
        right. exists (S j). split; [lia|exact Heq].
      * intros [Hs|[j [Hj Heq]]]; [left; exact Hs|].
        destruct j as [|j]; cbn [nth] in Heq.
        -- left. rewrite <- Heq. exact Hin.
        -- right. exists j. split; [lia|exact Heq].
    + split.
      * intros [Hs|[j [Hj Heq]]].
        -- apply elem_of_union in Hs as [Hs|Hs]; [|left; exact Hs].
           apply elem_of_singleton in Hs. right. exists 0%nat.
           split; [lia|]. cbn [nth]. symmetry. exact Hs.
        -- right. exists (S j). split; [lia|exact Heq].
      * intros [Hs|[j [Hj Heq]]].
        -- left. apply elem_of_union. right. exact Hs.
        -- destruct j as [|j]; cbn [nth] in Heq.
           ++ left. apply elem_of_union. left. apply elem_of_singleton.
              symmetry. exact Heq.
           ++ right. exists j. split; [lia|exact Heq].
Qed.

Lemma nth_map_seq {B : Type} (f : nat -> B) (n i : nat) (b : B) :
  (i < n)%nat -> nth i (map f (seq 0 n)) b = f i.
Proof.
  intros Hi. rewrite (nth_map_in_range f (seq 0 n) i 0%nat b) by (rewrite length_seq; exact Hi).
  rewrite seq_nth by exact Hi. reflexivity.
Qed.

(** The positions kept by [df[-duplicated]]: the first occurrence of every
    key. *)
Lemma In_first_occurrences (S : list string) (d : DataFrame) (i : nat) :
  In i (nonzero (map negb (mark_seen ∅ (map (key_of S d) (seq 0 (len d)))))) <->
  (i < len d)%nat /\ forall j, (j < i)%nat -> key_of S d j <> key_of S d i.
Proof.
  set (keys := map (key_of S d) (seq 0 (len d))).
  assert (Hlen : length keys = len d) by (unfold keys; rewrite length_map, length_seq; reflexivity).
  rewrite In_nonzero, length_map, length_mark_seen, Hlen.
  split.
  - intros [Hi Hnth]. split; [exact Hi|]. intros j Hj Heq.
    rewrite (nth_map_in_range negb _ i false false) in Hnth
      by (rewrite length_mark_seen, Hlen; exact Hi).
    apply negb_true_iff in Hnth.
    assert (Hmark : nth i (mark_seen ∅ keys) false = true).
    { apply nth_mark_seen; [rewrite Hlen; exact Hi|]. right. exists j.
      split; [exact Hj|]. unfold keys.
      rewrite !nth_map_seq by lia. exact Heq. }
    congruence.
  - intros [Hi Hfirst]. split; [exact Hi|].
    rewrite (nth_map_in_range negb _ i false false)
      by (rewrite length_mark_seen, Hlen; exact Hi).
    apply negb_true_iff. apply not_true_is_false. intros Hmark.
    apply nth_mark_seen in Hmark; [|rewrite Hlen; exact Hi].
    destruct Hmark as [Hs|[j [Hj Heq]]].
    + exact (not_elem_of_empty _ Hs).
    + unfold keys in Heq. rewrite !nth_map_seq in Heq by lia.
      exact (Hfirst j Hj Heq).
Qed.

Lemma In_names_column (d : DataFrame) (c : string) :
  In c (names d) -> exists col, In col (columns d) /\ fst col = c.
Proof.
  unfold names. intros Hc. apply in_map_iff in Hc as [col [Hfst Hin]].
  exists col. tauto.
Qed.

Lemma forallb_in_names (d : DataFrame) (l : list string) :
  (forall c, In c l -> In c (names d)) ->
  forallb (fun c => bool_decide (c ∈ names d)) l = true.
Proof.
  intros H. apply forallb_forall. intros c Hc.
  apply bool_decide_eq_true_2, list_elem_of_In, H, Hc.
Qed.

Lemma selected_columns_nonempty (d : DataFrame) (subset : option (list string)) :
  columns d <> [] -> valid_subset d subset ->
  List.filter (fun c => bool_decide (fst c ∈ default (names d) subset)) (columns d) <> [].
Proof.
  intros Hcols Hvalid.
  assert (Hex : exists col, In col (columns d) /\ In (fst col) (default (names d) subset)).
  { destruct subset as [l|]; cbn [default valid_subset] in *.
    - destruct Hvalid as [Hl Hsub]. destruct l as [|c l]; [congruence|].
      destruct (In_names_column d c (Hsub c (or_introl eq_refl))) as [col [Hin Hfst]].
      exists col. split; [exact Hin|]. rewrite Hfst. left. reflexivity.
    - destruct (columns d) as [|col cols] eqn:Hc; [congruence|].
      exists col. split; [left; reflexivity|].
      unfold names. rewrite Hc. left. reflexivity. }
  destruct Hex as [col [Hin Hsel]]. intros Hnil.
  assert (Hf : In col (List.filter (fun c => bool_decide (fst c ∈ default (names d) subset))
                         (columns d))).
  { apply filter_In. split; [exact Hin|].
    apply bool_decide_eq_true_2, list_elem_of_In, Hsel. }
  rewrite Hnil in Hf. exact Hf.
Qed.

Lemma drop_duplicates_valid (d : DataFrame) (subset : option (list string)) :
  wf d -> columns d <> [] -> valid_subset d subset ->
  drop_duplicates d subset =
    Return (take d (nonzero (map negb
      (mark_seen ∅ (map (key_of (default (names d) subset) d) (seq 0 (len d))))))).
Proof.
  intros Hwf Hcols Hvalid. unfold drop_duplicates, duplicated.
  destruct (empty d) eqn:Hempty.
  - (* no rows: the frame is returned as it is *)
    unfold empty in Hempty. apply orb_true_iff in Hempty as [Hn|Hc].
    + apply Nat.eqb_eq in Hn. rewrite Hn. cbn.
      rewrite <- (take_all d Hwf) at 1. rewrite Hn. reflexivity.
    + apply Nat.eqb_eq in Hc. destruct (columns d); [congruence|discriminate].
  - assert (Hknown : forallb (fun c => bool_decide (c ∈ names d))
                       (default (names d) subset) = true).
    { apply forallb_in_names. destruct subset as [l|]; cbn [default].
      - apply Hvalid.
      - intros c Hc. exact Hc. }
    rewrite Hknown. cbn [negb].
    pose proof (selected_columns_nonempty d subset Hcols Hvalid) as Hsel.
    destruct (List.filter _ (columns d)) as [|col cols]; [congruence|].
    unfold getitem_mask.
    rewrite length_map, length_mark_seen, length_map, length_seq, Nat.eqb_refl.
    reflexivity.
Qed.

Section Dedupe.

Context {E : Env}.

Lemma remove_duplicates_run (st : state) (d : DataFrame) (subset : option (list string)) :
  df st = Some d ->
  remove_duplicates subset st =
    match drop_duplicates d subset with
    | Return d' =>
        (Return true, set_df d' st,
         if 0 <? zlen d - zlen d'
         then [Info (RemovedDuplicates (zlen d - zlen d'))] else [])
    | Raise e => (Raise e, st, [])
    end.
Proof.
  intros Hdf. unfold remove_duplicates. run_monad.
  repeat (rewrite Hdf; cbn).
  destruct (drop_duplicates d subset) as [d'|e]; cbn; [|reflexivity].
  unfold zlen. destruct (0 <? Z.of_nat (len d) - Z.of_nat (len d')); reflexivity.
Qed.

End Dedupe.








Lemma labelled_absent (cols : list (string * list cell)) (c : string) :
  ~ In c (map fst cols) -> List.filter (fun col => String.eqb (fst col) c) cols = [].
Proof.
  induction cols as [|col cols IH]; intros Hc; [reflexivity|].
  cbn [List.filter map In] in *.
  destruct (String.eqb_spec (fst col) c) as [Heq|Hne]; [tauto|].
  apply IH. tauto.
Qed.


Lemma In_labelled (d : DataFrame) (c : string) (col : string * list cell) :
  In col (labelled c d) -> In col (columns d).
Proof. unfold labelled. intros H. apply filter_In in H. tauto. Qed.



(** * Sorting *)




















Section Sort.

Context {E : Env}.

Lemma sort_data_present (st : state) (d : DataFrame) (X : string) (ascending : bool) :
  df st = Some d -> X <> "" -> In X (names d) ->
  sort_data (Some X) ascending st =
    match sort_values argsort d X ascending with
    | Return d' => (Return true, set_df d' st, [Info (SortingBy X ascending)])
    | Raise e => (Raise e, st, [Info (SortingBy X ascending)])
    end.
Proof.
  intros Hdf Hne Hin. unfold sort_data. rewrite (truthy_Some X Hne).
  cbn [negb default]. run_monad. repeat (rewrite Hdf; cbn).
  rewrite bool_decide_eq_true_2 by (apply list_elem_of_In; exact Hin). cbn.
  destruct (sort_values argsort d X ascending); reflexivity.
Qed.

Lemma sort_data_absent (st : state) (d : DataFrame) (X : string) (ascending : bool) :
  df st = Some d -> X <> "" -> ~ In X (names d) ->
  sort_data (Some X) ascending st =
    (Return false, st, [Error (SortColumnNotFound X)]).
Proof.
  intros Hdf Hne Hin. unfold sort_data. rewrite (truthy_Some X Hne).
  cbn [negb default]. run_monad. repeat (rewrite Hdf; cbn).
  rewrite bool_decide_eq_false_2 by (rewrite list_elem_of_In; exact Hin).
  reflexivity.
Qed.

End Sort.


(** * The insertion sorts of the concrete world are well-behaved [argsort]s *)
Lemma py_le_total (a b : scalar) :
  py_le a b = Return true \/ py_le b a = Return true \/
  py_le a b = Raise TypeError.
Proof.
  destruct a as [x|s], b as [y|t]; cbn; try tauto.
  - destruct (Qclt_le_dec x y) as [Hlt|Hle].
    + left. rewrite bool_decide_eq_true_2; [reflexivity|apply Qclt_le_weak, Hlt].
    + right. left. rewrite bool_decide_eq_true_2; [reflexivity|exact Hle].
  - destruct (String.leb_total s t) as [H|H]; rewrite H; tauto.
Qed.

Lemma le_pos_total (vals : list scalar) (i j : nat) :
  World.le_pos vals i j \/ World.le_pos vals j i.
Proof.
  unfold World.le_pos, World.le_posb.
  destruct (vals !! i) as [a|]; [|tauto].
  destruct (vals !! j) as [b|]; [|tauto].
  destruct (py_le_total a b) as [H|[H|H]]; rewrite H; tauto.
Qed.

Lemma insert_pos_Permutation (vals : list scalar) (i : nat) (l : list nat) :
  Permutation (World.insert_pos vals i l) (i :: l).
Proof.
  induction l as [|j l IH]; cbn [World.insert_pos]; [reflexivity|].
  destruct (World.le_posb vals i j); [reflexivity|].
  rewrite IH. apply perm_swap.
Qed.

Lemma insert_pos_HdRel (vals : list scalar) (i j : nat) (l : list nat) :
  World.le_pos vals j i -> HdRel (World.le_pos vals) j l ->
  HdRel (World.le_pos vals) j (World.insert_pos vals i l).
Proof.
  intros Hji Hhd. destruct l as [|k l]; cbn [World.insert_pos].
  - constructor. exact Hji.
  - destruct (World.le_posb vals i k); constructor; [exact Hji|].
    inversion Hhd; assumption.
Qed.

Lemma insert_pos_Sorted (vals : list scalar) (i : nat) (l : list nat) :
  Sorted (World.le_pos vals) l -> Sorted (World.le_pos vals) (World.insert_pos vals i l).
Proof.
  induction 1 as [|j l Hs IH Hhd]; cbn [World.insert_pos].
  - repeat constructor.
  - destruct (World.le_posb vals i j) eqn:Hij.
    + constructor; [constructor; assumption|]. constructor. exact Hij.
    + constructor; [exact IH|]. apply insert_pos_HdRel; [|exact Hhd].
      destruct (le_pos_total vals i j) as [H|H]; [|exact H].
      unfold World.le_pos in H. congruence.
Qed.

Lemma sort_positions_Permutation (vals : list scalar) (start : list nat) :
  Permutation (World.sort_positions vals start) start.
Proof.
  unfold World.sort_positions. induction start as [|i start IH]; [constructor|].
  cbn [fold_right]. rewrite insert_pos_Permutation. constructor. exact IH.
Qed.

Lemma sort_positions_Sorted (vals : list scalar) (start : list nat) :
  Sorted (World.le_pos vals) (World.sort_positions vals start).
Proof.
  unfold World.sort_positions. induction start as [|i start IH]; [constructor|].
  cbn [fold_right]. apply insert_pos_Sorted, IH.
Qed.

Lemma Sorted_among {A : Type} (R1 R2 : relation A) (l : list A) :
  (forall x y, In x l -> In y l -> R1 x y -> R2 x y) ->
  Sorted R1 l -> Sorted R2 l.
Proof.
  intros Himpl Hs. induction Hs as [|x l Hs IH Hhd]; [constructor|].
  constructor.
  - apply IH. intros y z Hy Hz. apply Himpl; right; assumption.
  - destruct Hhd as [|y l' Hxy]; constructor.
    apply Himpl; [left; reflexivity|right; left; reflexivity|exact Hxy].
Qed.

Lemma comparable_py_le (vals : list scalar) (a b : scalar) :
  comparable vals = true -> In a vals -> In b vals ->
  exists r, py_le a b = Return r.
Proof.
  unfold comparable. intros Hcmp Ha Hb.
  apply orb_true_iff in Hcmp as [Hall|Hall]; rewrite forallb_forall in Hall;
    pose proof (Hall a Ha) as Hka; pose proof (Hall b Hb) as Hkb;
    destruct a, b; try discriminate; cbn; eexists; reflexivity.
Qed.

Lemma sort_positions_ok (vals : list scalar) (start : list nat) :
  comparable vals = true -> Permutation start (seq 0 (length vals)) ->
  Permutation (World.sort_positions vals start) (seq 0 (length vals)) /\
  Sorted (le_at vals) (World.sort_positions vals start).
Proof.
  intros Hcmp Hstart.
  assert (Hperm : Permutation (World.sort_positions vals start) (seq 0 (length vals))).
  { transitivity start; [apply sort_positions_Permutation|exact Hstart]. }
  split; [exact Hperm|].
  apply (Sorted_among (World.le_pos vals)); [|apply sort_positions_Sorted].
  intros i j Hi Hj. unfold World.le_pos, World.le_posb, le_at.
  apply (Permutation_in _ Hperm), in_seq in Hi.
  apply (Permutation_in _ Hperm), in_seq in Hj.
  destruct (lookup_lt_is_Some_2 vals i) as [a Ha]; [lia|].
  destruct (lookup_lt_is_Some_2 vals j) as [b Hb]; [lia|].
  rewrite Ha, Hb.
  destruct (comparable_py_le vals a b Hcmp) as [r Hr].
  - apply list_elem_of_In, list_elem_of_lookup. exists i. exact Ha.
  - apply list_elem_of_In, list_elem_of_lookup. exists j. exact Hb.
  - rewrite Hr. intros ->. reflexivity.
Qed.

Lemma stable_argsort_ok : argsort_ok World.stable_argsort.
Proof.
  intros vals Hcmp. apply sort_positions_ok; [exact Hcmp|reflexivity].
Qed.

Lemma reversing_argsort_ok : argsort_ok World.reversing_argsort.
Proof.
  intros vals Hcmp. apply sort_positions_ok; [exact Hcmp|].
  symmetry. apply Permutation_rev.
Qed.

(** Two well-behaved [argsort]s that differ on equal values: what
    [sort_values] is given by numpy under its default [kind] leaves the order
    of rows with equal keys open. *)
Lemma argsort_ok_leaves_ties_open :
  argsort_ok World.stable_argsort /\ argsort_ok World.reversing_argsort /\
  World.stable_argsort [int 1; int 1] = [0; 1]%nat /\
  World.reversing_argsort [int 1; int 1] = [1; 0]%nat.
Proof.
  split; [exact stable_argsort_ok|]. split; [exact reversing_argsort_ok|].
  split; vm_compute; reflexivity.
Qed.

(** * The driver after a failed sort *)
Section SortMain.

Context {E : Env}.

Lemma on_disk_add_file (st : state) (path : string) (kind : file_kind) (d : DataFrame) :
  on_disk path (add_file (path, kind, d) st) = true.
Proof.
  unfold on_disk, add_file. cbn [files leftovers].
  rewrite existsb_app. cbn [existsb fst]. rewrite String.eqb_refl.
  rewrite orb_true_r. reflexivity.
Qed.

Lemma save_file_ok (st : state) (d : DataFrame) (output_file : string)
    (kind : file_kind) :
  df st = Some d ->
  kind_of_format (suffix_format output_file) = Some kind ->
  write kind output_file d = Return tt ->
  save_file output_file None st =
    (Return true, add_file (output_file, kind, d) st,
     [Info (SavingTo output_file (suffix_format output_file)); Info FileSaved]).
Proof.
  intros Hdf Hkind Hwrite. unfold save_file. rewrite Hkind.
  unfold_monad. rewrite Hdf. unfold to_file. rewrite Hwrite.
  unfold stat. unfold_monad. rewrite on_disk_add_file. reflexivity.
Qed.

Lemma show_summary_ok (st : state) (d : DataFrame) :
  df st = Some d ->
  show_summary st =
    (Return tt, st,
     [PrintSummary (original_rows st) (zlen d) (original_rows st - zlen d) (zcols d)]).
Proof.
  intros Hdf. unfold show_summary. run_monad. repeat (rewrite Hdf; cbn). reflexivity.
Qed.

(** C1 (what the code does).  A run of [main] that only requests a sort, by a
    column the loaded frame does not have: [sort_data] logs the error, returns
    [False] and leaves the frame as it was, but [main] does not look at the
    flag; the run goes on to save the unsorted frame and ends with status 0,
    where the claim has every remaining stage skipped, no file written and a
    non-zero status. *)
Theorem main_saves_after_failed_sort (args : Args) (d : DataFrame) (X : string)
    (kind : file_kind) :
  read_csv (input args) (encoding args) (delimiter args) = Return d ->
  info args = false -> columns_arg args = None -> filter_arg args = None ->
  remove_duplicates_flag args = false -> fill_missing_arg args = None ->
  sort args = Some X -> X <> "" -> ~ In X (names d) ->
  kind_of_format (suffix_format (output args)) = Some kind ->
  write kind (output args) d = Return tt ->
  run args =
    (0, add_file (output args, kind, d) (loaded args d),
     [Info (Loading (input args)); Info (Loaded (zlen d) (zcols d));
      Error (SortColumnNotFound X);
      Info (SavingTo (output args) (suffix_format (output args))); Info FileSaved;
      PrintSummary (zlen d) (zlen d) (zlen d - zlen d) (zcols d);
      Info Completed]).
Proof.
  intros Hread Hinfo Hcols Hfilter Hdup Hfill Hsort Hne Habsent Hkind Hwrite.
  assert (Hs : (_ <- sort_data (Some X) (negb (descending args)) ;; ret tt)
                 (loaded args d) =
               (Return tt, loaded args d, [Error (SortColumnNotFound X)])).
  { rewrite (bind_return _ _ _ _ _ _
               (sort_data_absent (loaded args d) d X _ eq_refl Hne Habsent)).
    reflexivity. }
  unfold run, main.
  rewrite (bind_return _ _ _ _ _ _ (load_csv_ok (init (input args)) d _ _ Hread)).
  fold (loaded args d).
  rewrite Hinfo, Hcols, Hfilter, Hdup, Hfill, Hsort, (truthy_Some X Hne).
  cbn [negb when truthy]. rewrite !bind_ret_l.
  rewrite (bind_return _ _ _ _ _ _ Hs).
  rewrite (bind_return _ _ _ _ _ _
             (save_file_ok (loaded args d) d (output args) kind eq_refl Hkind Hwrite)).
  cbn [negb when]. rewrite bind_ret_l.
  rewrite (bind_return _ _ _ _ _ _
             (show_summary_ok (add_file (output args, kind, d) (loaded args d)) d eq_refl)).
  reflexivity.
Qed.

End SortMain.

(** * The properties at work in the concrete world *)

(** The scenario of the specification, with a stable [argsort]: the three rows
    come out as [(1, x), (2, N/A), (2, x)] and the run ends with status 0. *)
Example scenario_rows :
  match @run World.world World.scenario with
  | (status, st, _) =>
      status = 0 /\
      map (fun f => (fst f, rows (snd f))) (files st) =
        [ ("out.csv", CsvFile,
           [ [Some (int 1); Some (Str "x")];
             [Some (int 2); Some (Str "N/A")];
             [Some (int 2); Some (Str "x")] ]) ]
  end.
Proof. vm_compute. split; reflexivity. Qed.

(** The format that the world reads off an output path. *)
Example format_of_path_cases :
  map World.format_of_path ["out.csv"; "dir.d/OUT.Json"; "x.tar.gz"; ".csv"; "out."; "out"] =
    ["csv"; "json"; "gz"; ""; ""; ""].
Proof. vm_compute. reflexivity. Qed.

(** Requesting [id,age] from a frame without [age] names exactly [age]. *)
Example missing_names_age : missing_names "id,age" World.people = {[ "age" ]}.
Proof. vm_compute. reflexivity. Qed.

Lemma wf_people : wf World.people.
Proof. unfold wf. repeat constructor. Qed.

Lemma unique_names_people : unique_names World.people.
Proof. unfold unique_names. apply (bool_decide_unpack _). vm_compute. exact I. Qed.

Lemma has_null_people : has_null World.people.
Proof.
  exists ("name", [Some (Str "ann"); None; Some (Str "bob"); Some (Str "bob")]).
  split; [right; left; reflexivity|right; left; reflexivity].
Qed.

(** The run [--sort zip] on [people.csv]. *)
Lemma main_saves_after_failed_sort_witness :
  @run World.world World.sort_by_zip =
    (0, add_file ("out.csv", CsvFile, World.people)
          (loaded World.sort_by_zip World.people),
     [Info (Loading "people.csv"); Info (Loaded 4 3);
      Error (SortColumnNotFound "zip");
      Info (SavingTo "out.csv" "csv"); Info FileSaved;
      PrintSummary 4 4 0 3; Info Completed]).
Proof.
  apply (@main_saves_after_failed_sort World.world World.sort_by_zip World.people
           "zip" CsvFile); try reflexivity.
  - discriminate.
  - vm_compute. intros [H|[H|[H|[]]]]; discriminate.
Defined.

(** The request [id, age,zip] on [people]: [age] and [zip] are missing. *)
Lemma select_columns_reports_all_missing_witness :
  df World.ready = Some World.people /\
  "id, age,zip" <> "" /\
  (exists c, In c (requested "id, age,zip") /\ ~ In c (names World.people)) /\
  exists missing : gset string,
    (forall c, c ∈ missing <->
       In c (requested "id, age,zip") /\ ~ In c (names World.people)) /\
    select_columns (Some "id, age,zip") World.ready =
      (Return (Some false), World.ready, [Error (ColumnsNotFound missing)]) /\
    (forall args,
        @read_csv World.world (input args) (encoding args) (delimiter args) =
          Return World.people ->
        info args = false ->
        columns_arg args = Some "id, age,zip" ->
        exists st' out,
          @run World.world args = (1, st', out) /\ df st' = Some World.people /\
          files st' = [] /\ In (Error (ColumnsNotFound missing)) out).
Proof.
  assert (Hmiss : exists c, In c (requested "id, age,zip") /\ ~ In c (names World.people)).
  { exists "age". vm_compute. split; [right; left; reflexivity|].
    intros [H|[H|[H|[]]]]; discriminate. }
  split; [reflexivity|]. split; [discriminate|]. split; [exact Hmiss|].
  apply (@select_columns_reports_all_missing World.world World.ready World.people
           "id, age,zip"); [reflexivity|discriminate|exact Hmiss].
Defined.

(** The filter [active > 0] on [people] evaluates to a mask and removes one
    row of four. *)
Lemma filter_rows_counts_witness :
  df World.ready = Some World.people /\
  @eval_expr World.world "active > 0" World.people =
    Return (Mask [true; false; true; true]) /\
  @filter_rows World.world (Some "active > 0") World.ready =
    (Return true, set_df (take World.people [0; 2; 3]%nat) World.ready,
     [Info (ApplyingFilter "active > 0"); Info (FilteredOut 1 3)]) /\
  exists d',
    df (set_df (take World.people [0; 2; 3]%nat) World.ready) = Some d' /\
    (forall filtered_rows remaining,
        In (Info (FilteredOut filtered_rows remaining))
           [Info (ApplyingFilter "active > 0"); Info (FilteredOut 1 3)] ->
        remaining = zlen d' /\ remaining + filtered_rows = zlen World.people) /\
    (truthy (Some "active > 0") = true ->
     In (Info (FilteredOut (zlen World.people - zlen d') (zlen d')))
        [Info (ApplyingFilter "active > 0"); Info (FilteredOut 1 3)]) /\
    (truthy (Some "active > 0") = false -> d' = World.people) /\
    (forall mask,
        truthy (Some "active > 0") = true ->
        @eval_expr World.world (default "" (Some "active > 0")) World.people =
          Return (Mask mask) ->
        length mask = len World.people /\
        d' = take World.people (nonzero mask) /\
        (len d' <= len World.people)%nat) /\
    (forall labels,
        truthy (Some "active > 0") = true ->
        @eval_expr World.world (default "" (Some "active > 0")) World.people =
          Return (Labels labels) ->
        d' = take World.people (flat_map (locate World.people) labels)).
Proof.
  split; [reflexivity|]. split; [vm_compute; reflexivity|].
  split; [vm_compute; reflexivity|].
  apply (@filter_rows_counts World.world World.ready _ World.people (Some "active > 0"));
    [reflexivity|vm_compute; reflexivity].
Defined.

(** What the engine makes of the three forms of filter on [people]. *)
Example column_eval_people :
  World.column_eval "active > 0" World.people = Return (Mask [true; false; true; true]) /\
  World.column_eval "id" World.people =
    Return (Labels [Some (int 1); Some (int 2); Some (int 2); Some (int 3)]) /\
  World.column_eval "zip" World.people = Raise (EvalError "name is not defined") /\
  World.column_eval "name > 0" World.people = Raise TypeError.
Proof. vm_compute. repeat split; reflexivity. Qed.

(** C8, the claim as written: the filter [id.repeat(2)] evaluates to the
    values of [id], each twice, which are not booleans; [query] takes them as
    row labels, [filter_rows] returns [True], and the frame has grown from 4
    rows to 8, with -4 rows reported as filtered out. *)
Lemma filter_rows_adds_rows :
  df World.ready = Some World.people /\
  @filter_rows World.world (Some "id.repeat(2)") World.ready =
    (Return true,
     set_df (take World.people [1; 1; 2; 2; 2; 2; 3; 3]%nat) World.ready,
     [Info (ApplyingFilter "id.repeat(2)"); Info (FilteredOut (-4) 8)]) /\
  len World.people = 4%nat /\
  len (take World.people [1; 1; 2; 2; 2; 2; 3; 3]%nat) = 8%nat /\
  ~ (len (take World.people [1; 1; 2; 2; 2; 2; 3; 3]%nat) <= len World.people)%nat.
Proof.
  split; [reflexivity|]. split; [vm_compute; reflexivity|].
  split; [reflexivity|]. split; [reflexivity|]. cbn. lia.
Qed.

(** The method [skip] on [people], which has one null. *)
Lemma fill_missing_unknown_method_witness :
  df World.ready = Some World.people /\ has_null World.people /\
  "skip" <> "drop" /\ "skip" <> "fill" /\
  fill_missing "skip" None World.ready =
    (Return true, World.ready, [Info (FoundMissing (isnull_sum World.people))]).
Proof.
  split; [reflexivity|]. split; [exact has_null_people|].
  split; [discriminate|]. split; [discriminate|].
  apply (@fill_missing_unknown_method World.world World.ready World.people "skip" None);
    [reflexivity|exact has_null_people|discriminate|discriminate].
Defined.







(** * Methods that leave the disk alone and do not end the process *)
Lemma quiet_ret {A : Type} (a : A) : quiet (ret a).
Proof.
  intros st r st' out [= <- <- _]. split; [reflexivity|split; [reflexivity|discriminate]].
Qed.

Lemma quiet_get : quiet get.
Proof.
  intros st r st' out [= <- <- _]. split; [reflexivity|split; [reflexivity|discriminate]].
Qed.

Lemma quiet_emit (e : event) : quiet (emit e).
Proof.
  intros st r st' out [= <- <- _]. split; [reflexivity|split; [reflexivity|discriminate]].
Qed.

Lemma quiet_modify (f : state -> state) :
  (forall st, files (f st) = files st) ->
  (forall st, leftovers (f st) = leftovers st) -> quiet (modify f).
Proof.
  intros Hf Hl st r st' out [= <- <- _].
  split; [apply Hf|split; [apply Hl|discriminate]].
Qed.

Lemma quiet_raise {A : Type} (e : exn) : is_exception e -> quiet (@raise A e).
Proof.
  intros He st r st' out [= <- <- _]. split; [reflexivity|split; [reflexivity|]].
  intros c [= Hc]. exact (He c Hc).
Qed.

Lemma quiet_lift {A : Type} (r : result A) :
  (forall e, r = Raise e -> is_exception e) -> quiet (lift r).
Proof.
  intros Hr. destruct r as [a|e]; cbn [lift].
  - apply quiet_ret.
  - apply quiet_raise, Hr. reflexivity.
Qed.

Lemma quiet_bind {A B : Type} (m : M A) (k : A -> M B) :
  quiet m -> (forall a, quiet (k a)) -> quiet (bind m k).
Proof.
  intros Hm Hk st r st'' out Hrun. unfold bind in Hrun.
  destruct (m st) as [[ra st'] out1] eqn:Em.
  destruct (Hm _ _ _ _ Em) as [Hfiles [Hleft Hexit]].
  destruct ra as [a|e].
  - destruct (k a st') as [[rb st2] out2] eqn:Ek.
    injection Hrun as <- <- _.
    destruct (Hk a _ _ _ _ Ek) as [Hfiles' [Hleft' Hexit']].
    split; [congruence|split; [congruence|exact Hexit']].
  - injection Hrun as <- <- _. split; [exact Hfiles|split; [exact Hleft|]].
    intros c [= Hc]. exact (Hexit c (f_equal Raise Hc)).
Qed.

Lemma quiet_when (b : bool) (m : M unit) : quiet m -> quiet (when b m).
Proof. intros Hm. destruct b; [exact Hm|apply quiet_ret]. Qed.

Lemma quiet_try_except {A : Type} (body : M A) (handler : exn -> M A) :
  quiet body -> (forall e, quiet (handler e)) -> quiet (try_except body handler).
Proof.
  intros Hb Hh st r st'' out Hrun. unfold try_except in Hrun.
  destruct (body st) as [[ra st'] out1] eqn:Eb.
  destruct (Hb _ _ _ _ Eb) as [Hfiles [Hleft Hexit]].
  destruct ra as [a|e].
  - injection Hrun as <- <- _. split; [exact Hfiles|split; [exact Hleft|discriminate]].
  - assert (Hcaught : match handler e st' with
                      | (r0, st0, out') => (r0, st0, out1 ++ out')
                      end = (r, st'', out)).
    { destruct e; try exact Hrun. exfalso. exact (Hexit code eq_refl). }
    destruct (handler e st') as [[rh st2] out2] eqn:Eh.
    injection Hcaught as <- <- _.
    destruct (Hh e _ _ _ _ Eh) as [Hfiles' [Hleft' Hexit']].
    split; [congruence|split; [congruence|exact Hexit']].
Qed.

Lemma is_exception_AttributeError : is_exception AttributeError.
Proof. intros c. discriminate. Qed.

Lemma is_exception_TypeError : is_exception TypeError.
Proof. intros c. discriminate. Qed.

Lemma quiet_frame_or (e : exn) : is_exception e -> quiet (frame_or e).
Proof.
  intros He. unfold frame_or. apply quiet_bind; [apply quiet_get|].
  intros st. destruct (df st); [apply quiet_ret|apply quiet_raise, He].
Qed.

Lemma quiet_self_df : quiet self_df.
Proof. apply quiet_frame_or, is_exception_AttributeError. Qed.

Lemma quiet_len_self_df : quiet len_self_df.
Proof.
  unfold len_self_df. apply quiet_bind.
  - apply quiet_frame_or, is_exception_TypeError.
  - intros d. apply quiet_ret.
Qed.

Lemma quiet_set_df (d : DataFrame) : quiet (modify (set_df d)).
Proof. apply quiet_modify; reflexivity. Qed.

(** What the frame operations raise is an [Exception]. *)
Lemma getitem_mask_exception (d : DataFrame) (mask : list bool) (e : exn) :
  getitem_mask d mask = Raise e -> is_exception e.
Proof.
  unfold getitem_mask. destruct (length mask =? len d)%nat; [discriminate|].
  intros [= <-] c. discriminate.
Qed.

Lemma loc_exception (d : DataFrame) (sel : selection) (e : exn) :
  loc d sel = Raise e -> is_exception e.
Proof.
  destruct sel as [mask|labels]; cbn [loc].
  - apply getitem_mask_exception.
  - unfold loc_labels. destruct (forallb _ labels); [discriminate|].
    intros [= <-] c. discriminate.
Qed.

Lemma getitem_list_exception (d : DataFrame) (col_list : list string) (e : exn) :
  getitem_list d col_list = Raise e -> is_exception e.
Proof.
  unfold getitem_list. destruct (forallb _ col_list); [discriminate|].
  intros [= <-] c. discriminate.
Qed.

Lemma drop_duplicates_exception (d : DataFrame) (subset : option (list string)) (e : exn) :
  drop_duplicates d subset = Raise e -> is_exception e.
Proof.
  unfold drop_duplicates, duplicated. destruct (empty d); [discriminate|].
  destruct (negb _).
  - intros [= <-] c. discriminate.
  - destruct (List.filter _ (columns d)).
    + intros [= <-] c. discriminate.
    + apply getitem_mask_exception.
Qed.

Lemma sort_values_exception (argsort : list scalar -> list nat) (d : DataFrame)
    (by_ : string) (ascending : bool) (e : exn) :
  sort_values argsort d by_ ascending = Raise e -> is_exception e.
Proof.
  unfold sort_values. destruct (labelled by_ d) as [|k [|k' ks]].
  - intros [= <-] c. discriminate.
  - destruct (comparable _); [discriminate|]. intros [= <-] c. discriminate.
  - intros [= <-] c. discriminate.
Qed.

Lemma info_lines_exception (d : DataFrame) (cols : list string) (e : exn) :
  info_lines d cols = Raise e -> is_exception e.
Proof.
  induction cols as [|col cols IH]; cbn [info_lines]; [discriminate|].
  destruct (labelled col d) as [|c [|c' cs]];
    try (intros [= <-] k; discriminate).
  destruct (info_lines d cols) as [ls|e']; [discriminate|].
  intros [= <-]. apply IH. reflexivity.
Qed.

Section QuietStages.

Context {E : Env}.
Hypothesis Hlibs : well_behaved E.

Lemma query_exception (d : DataFrame) (expr : string) (e : exn) :
  query eval_expr d expr = Raise e -> is_exception e.
Proof.
  unfold query. destruct (eval_expr expr d) as [sel|e'] eqn:Ee.
  - apply loc_exception.
  - intros [= <-]. destruct Hlibs as [_ [Heval _]]. exact (Heval _ _ _ Ee).
Qed.

Lemma quiet_load_csv (encoding delimiter : string) : quiet (load_csv encoding delimiter).
Proof.
  unfold load_csv. apply quiet_try_except.
  - apply quiet_bind; [apply quiet_get|]. intros st.
    apply quiet_bind; [apply quiet_emit|]. intros _.
    apply quiet_bind.
    { apply quiet_lift. intros e He. destruct Hlibs as [Hread _]. exact (Hread _ _ _ _ He). }
    intros d. apply quiet_bind; [apply quiet_set_df|]. intros _.
    apply quiet_bind; [apply quiet_len_self_df|]. intros n.
    apply quiet_bind; [apply quiet_modify; reflexivity|]. intros _.
    apply quiet_bind; [apply quiet_emit|]. intros _. apply quiet_ret.
  - intros e. apply quiet_bind; [apply quiet_emit|]. intros _. apply quiet_ret.
Qed.

Lemma quiet_show_info : quiet show_info.
Proof.
  unfold show_info. apply quiet_bind; [apply quiet_get|]. intros st.
  destruct (df st) as [d|]; [|apply quiet_ret].
  apply quiet_bind; [|intros ls; apply quiet_emit].
  apply quiet_lift. intros e. apply info_lines_exception.
Qed.

Lemma quiet_select_columns (columns : option string) : quiet (select_columns columns).
Proof.
  unfold select_columns. destruct (negb (truthy columns)); [apply quiet_ret|].
  apply quiet_bind; [apply quiet_self_df|]. intros d.
  destruct (negb (bool_decide _)).
  - apply quiet_bind; [apply quiet_emit|]. intros _. apply quiet_ret.
  - apply quiet_bind; [apply quiet_emit|]. intros _.
    apply quiet_bind.
    { apply quiet_lift. intros e. apply getitem_list_exception. }
    intros d'. apply quiet_bind; [apply quiet_set_df|]. intros _. apply quiet_ret.
Qed.

Lemma quiet_filter_rows (filter_expr : option string) : quiet (filter_rows filter_expr).
Proof.
  unfold filter_rows. destruct (negb (truthy filter_expr)); [apply quiet_ret|].
  apply quiet_try_except.
  - apply quiet_bind; [apply quiet_emit|]. intros _.
    apply quiet_bind; [apply quiet_len_self_df|]. intros n.
    apply quiet_bind; [apply quiet_self_df|]. intros d.
    apply quiet_bind.
    { apply quiet_lift. intros e. apply query_exception. }
    intros d'. apply quiet_bind; [apply quiet_set_df|]. intros _.
    apply quiet_bind; [apply quiet_len_self_df|]. intros n'.
    apply quiet_bind; [apply quiet_emit|]. intros _. apply quiet_ret.
  - intros e. apply quiet_bind; [apply quiet_emit|]. intros _. apply quiet_ret.
Qed.

Lemma quiet_sort_data (sort_column : option string) (ascending : bool) :
  quiet (sort_data sort_column ascending).
Proof.
  unfold sort_data. destruct (negb (truthy sort_column)); [apply quiet_ret|].
  apply quiet_bind; [apply quiet_self_df|]. intros d.
  destruct (negb (bool_decide _)).
  - apply quiet_bind; [apply quiet_emit|]. intros _. apply quiet_ret.
  - apply quiet_bind; [apply quiet_emit|]. intros _.
    apply quiet_bind.
    { apply quiet_lift. intros e. apply sort_values_exception. }
    intros d'. apply quiet_bind; [apply quiet_set_df|]. intros _. apply quiet_ret.
Qed.

Lemma quiet_remove_duplicates (subset : option (list string)) :
  quiet (remove_duplicates subset).
Proof.
  unfold remove_duplicates.
  apply quiet_bind; [apply quiet_len_self_df|]. intros n.
  apply quiet_bind; [apply quiet_self_df|]. intros d.
  apply quiet_bind.
  { apply quiet_lift. intros e. apply drop_duplicates_exception. }
  intros d'. apply quiet_bind; [apply quiet_set_df|]. intros _.
  apply quiet_bind; [apply quiet_len_self_df|]. intros n'.
  apply quiet_bind; [apply quiet_when, quiet_emit|]. intros _. apply quiet_ret.
Qed.

Lemma quiet_fill_missing (method : string) (value : option scalar) :
  quiet (fill_missing method value).
Proof.
  unfold fill_missing. apply quiet_bind; [apply quiet_self_df|]. intros d.
  destruct (isnull_sum d =? 0).
  - apply quiet_bind; [apply quiet_emit|]. intros _. apply quiet_ret.
  - apply quiet_bind; [apply quiet_emit|]. intros _.
    apply quiet_bind; [|intros _; apply quiet_ret].
    destruct (String.eqb method "drop").
    + apply quiet_bind; [apply quiet_set_df|]. intros _. apply quiet_emit.
    + destruct (String.eqb method "fill"); [|apply quiet_ret].
      apply quiet_bind; [apply quiet_set_df|]. intros _. apply quiet_emit.
Qed.

End QuietStages.

(** * How [main] ends *)
Lemma ensures_bind {A B : Type} (P : state -> Prop) (m : M A)
    (R : A -> state -> Prop) (k : A -> M B) (Q : result B -> state -> Prop) :
  ensures P m (fun r st => match r with
                           | Return a => R a st
                           | Raise e => Q (Raise e) st
                           end) ->
  (forall a, ensures (R a) (k a) Q) ->
  ensures P (bind m k) Q.
Proof.
  intros Hm Hk st r st'' out HP Hrun. unfold bind in Hrun.
  destruct (m st) as [[ra st'] out1] eqn:Em.
  pose proof (Hm _ _ _ _ HP Em) as Hmid.
  destruct ra as [a|e].
  - destruct (k a st') as [[rb st2] out2] eqn:Ek.
    injection Hrun as <- <- _. exact (Hk a _ _ _ _ Hmid Ek).
  - injection Hrun as <- <- _. exact Hmid.
Qed.

Lemma ensures_ret {A : Type} (P : state -> Prop) (a : A) (Q : result A -> state -> Prop) :
  (forall st, P st -> Q (Return a) st) -> ensures P (ret a) Q.
Proof. intros H st r st' out HP [= <- <- _]. exact (H st HP). Qed.

Lemma ensures_false {A : Type} (m : M A) (Q : result A -> state -> Prop) :
  ensures (fun _ => False) m Q.
Proof. intros st r st' out []. Qed.

Section MainOutcome.

Context {E : Env}.
Hypothesis Hlibs : well_behaved E.
Variable args : Args.

(** A quiet step of [main] leaves the disk clean; if it raises, the run ends
    as [main_post] says. *)
Lemma ensures_quiet {A : Type} (m : M A) :
  quiet m ->
  ensures clean_disk m
    (fun r st => match r with
                 | Return _ => clean_disk st
                 | Raise e => main_post args (Raise e) st
                 end).
Proof.
  intros Hq st r st' out [Hfiles Hleft] Hrun.
  destruct (Hq _ _ _ _ Hrun) as [Hsame [Hsame' Hexit]].
  assert (Hnone : clean_disk st') by (split; congruence).
  destruct r as [a|e]; [exact Hnone|].
  destruct e; try exact Hnone. exfalso. exact (Hexit code eq_refl).
Qed.

Lemma ensures_exit_one (b : bool) :
  ensures clean_disk (when b (sys_exit 1))
    (fun r st => match r with
                 | Return _ => clean_disk st
                 | Raise e => main_post args (Raise e) st
                 end).
Proof.
  intros st r st' out [Hfiles Hleft] Hrun.
  destruct b; cbn in Hrun; injection Hrun as <- <- _.
  - split; [exact Hfiles|]. right. split; [reflexivity|]. left. exact Hleft.
  - split; assumption.
Qed.

(** A stage whose flag [main] checks. *)
Lemma ensures_checked {A : Type} (m : M A) (failed : A -> bool) :
  quiet m ->
  ensures clean_disk (r <- m ;; when (failed r) (sys_exit 1))
    (fun r st => match r with
                 | Return _ => clean_disk st
                 | Raise e => main_post args (Raise e) st
                 end).
Proof.
  intros Hq. apply (ensures_bind _ _ (fun _ st => clean_disk st)).
  - apply ensures_quiet, Hq.
  - intros a. apply ensures_exit_one.
Qed.

(** A stage whose flag [main] discards. *)
Lemma ensures_unchecked {A : Type} (m : M A) :
  quiet m ->
  ensures clean_disk (_ <- m ;; ret tt)
    (fun r st => match r with
                 | Return _ => clean_disk st
                 | Raise e => main_post args (Raise e) st
                 end).
Proof.
  intros Hq. apply (ensures_bind _ _ (fun _ st => clean_disk st)).
  - apply ensures_quiet, Hq.
  - intros a. apply ensures_ret. tauto.
Qed.

Lemma ensures_skipped :
  ensures clean_disk (ret tt)
    (fun r st => match r with
                 | Return _ => clean_disk st
                 | Raise e => main_post args (Raise e) st
                 end).
Proof. apply ensures_ret. tauto. Qed.

(** [save_file] has put the frame on the disk exactly when it returns
    [True]; otherwise the disk holds at most what the failed write left. *)
Lemma ensures_save_file :
  ensures clean_disk (save_file (output args) None)
    (fun r st =>
       match r with
       | Return true => saved args st
       | Return false => not_saved args st
       | Raise e => main_post args (Raise e) st
       end).
Proof.
  intros st r st' out [Hfiles Hleft] Hrun. unfold save_file in Hrun.
  destruct (kind_of_format (suffix_format (output args))) as [kind|] eqn:Hkind.
  - unfold_monad. destruct (df st) as [d|] eqn:Hdf; cbn in Hrun.
    + unfold to_file in Hrun.
      destruct (write kind (output args) d) as [[]|e] eqn:Hwrite.
      * unfold stat in Hrun. unfold_monad. rewrite on_disk_add_file in Hrun.
        cbn in Hrun. injection Hrun as <- <- _. split; [exact Hleft|].
        exists kind, d. cbn. rewrite Hfiles. repeat split; assumption.
      * destruct Hlibs as [_ [_ Hw]]. pose proof (Hw _ _ _ _ Hwrite) as He.
        unfold_monad.
        destruct (leaves_file kind (output args) d) eqn:Hleaves; cbn in Hrun;
          (destruct e; try (exfalso; exact (He code eq_refl));
           injection Hrun as <- <- _).
        all: try (split; [exact Hfiles|]; right; cbn; rewrite Hleft;
                  split; [reflexivity|]; eexists kind, d, _;
                  repeat split; eassumption).
        all: split; [exact Hfiles|left; exact Hleft].
    + injection Hrun as <- <- _. split; [exact Hfiles|left; exact Hleft].
  - unfold_monad. cbn in Hrun. injection Hrun as <- <- _.
    split; [exact Hfiles|left; exact Hleft].
Qed.

Lemma ensures_summary :
  ensures (saved args) (show_summary ;;; emit (Info Completed))
    (fun r st => exists u, r = Return u /\ saved args st).
Proof.
  intros st r st' out [Hleft [kind [d [Hfiles [Hdf Hrest]]]]] Hrun.
  unfold show_summary in Hrun. run_monad.
  repeat (rewrite Hdf in Hrun; cbn in Hrun).
  injection Hrun as <- <- _. exists tt. split; [reflexivity|].
  split; [exact Hleft|]. exists kind, d. tauto.
Qed.

Lemma main_outcome :
  ensures clean_disk (main args) (main_post args).
Proof.
  unfold main.
  apply (ensures_bind _ _ (fun _ st => clean_disk st));
    [apply ensures_quiet, quiet_load_csv, Hlibs|intros ok].
  apply (ensures_bind _ _ (fun _ st => clean_disk st));
    [apply ensures_exit_one|intros _].
  destruct (info args) eqn:Hinfo.
  - (* info-only: [show_info], then [sys.exit(0)] *)
    apply (ensures_bind _ _ (fun _ _ => False)); [|intros _; apply ensures_false].
    cbn [when].
    apply (ensures_bind _ _ (fun _ st => clean_disk st)).
    + apply ensures_quiet, quiet_show_info.
    + intros _ st r st' out [Hfiles Hleft] [= <- <- _]. cbn. rewrite Hinfo.
      split; [exact Hfiles|]. left. repeat split. exact Hleft.
  - apply (ensures_bind _ _ (fun _ st => clean_disk st));
      [apply ensures_skipped|intros _].
    apply (ensures_bind _ _ (fun _ st => clean_disk st)).
    { destruct (truthy (columns_arg args)); cbn [when];
        [apply ensures_checked, quiet_select_columns|apply ensures_skipped]. }
    intros _. apply (ensures_bind _ _ (fun _ st => clean_disk st)).
    { destruct (truthy (filter_arg args)); cbn [when];
        [apply ensures_checked, quiet_filter_rows, Hlibs|apply ensures_skipped]. }
    intros _. apply (ensures_bind _ _ (fun _ st => clean_disk st)).
    { destruct (remove_duplicates_flag args); cbn [when];
        [apply ensures_unchecked, quiet_remove_duplicates|apply ensures_skipped]. }
    intros _. apply (ensures_bind _ _ (fun _ st => clean_disk st)).
    { destruct (truthy (fill_missing_arg args)); cbn [when];
        [apply ensures_unchecked, quiet_fill_missing|apply ensures_skipped]. }
    intros _. apply (ensures_bind _ _ (fun _ st => clean_disk st)).
    { destruct (truthy (sort args)); cbn [when];
        [apply ensures_unchecked, quiet_sort_data|apply ensures_skipped]. }
    intros _.
    apply (ensures_bind _ _
             (fun ok st => if ok : bool then saved args st else not_saved args st)).
    { intros st r st' out Hclean Hrun.
      pose proof (ensures_save_file _ _ _ _ Hclean Hrun) as Hsave.
      destruct r as [[|]|e]; exact Hsave. }
    intros [|]; cbn [negb when].
    + apply (ensures_bind _ _ (fun _ st => saved args st));
        [apply ensures_ret; tauto|intros _].
      intros st r st' out Hpre Hrun.
      destruct (ensures_summary _ _ _ _ Hpre Hrun) as [u [-> [Hleft Hpost]]].
      cbn. rewrite Hinfo. split; [reflexivity|]. split; [exact Hleft|exact Hpost].
    + apply (ensures_bind _ _ (fun _ _ => False)); [|intros _; apply ensures_false].
      intros st r st' out [Hfiles Hleft] [= <- <- _]. cbn.
      split; [exact Hfiles|]. right. split; [reflexivity|exact Hleft].
Qed.

End MainOutcome.

Lemma run_outcome {E : Env} (args : Args) (status : Z) (st : state) (out : list event) :
  well_behaved E -> run args = (status, st, out) ->
  exists r, status = exit_status r /\ main_post args r st.
Proof.
  intros Hlibs Hrun. unfold run in Hrun.
  destruct (main args (init (input args))) as [[r st'] out'] eqn:Hmain.
  injection Hrun as <- <- _. exists r. split; [reflexivity|].
  exact (main_outcome Hlibs args (init (input args)) r st' out'
           (conj eq_refl eq_refl) Hmain).
Qed.


(** * Saving *)
Lemma kind_of_format_None (file_format : string) :
  ~ In file_format ["csv"; "txt"; "xlsx"; "excel"; "json"] ->
  kind_of_format file_format = None.
Proof.
  intros Hnot. unfold kind_of_format.
  destruct (String.eqb_spec file_format "csv") as [->|_]; [exfalso; apply Hnot; cbn; tauto|].
  destruct (String.eqb_spec file_format "txt") as [->|_]; [exfalso; apply Hnot; cbn; tauto|].
  destruct (String.eqb_spec file_format "xlsx") as [->|_]; [exfalso; apply Hnot; cbn; tauto|].
  destruct (String.eqb_spec file_format "excel") as [->|_]; [exfalso; apply Hnot; cbn; tauto|].
  destruct (String.eqb_spec file_format "json") as [->|_]; [exfalso; apply Hnot; cbn; tauto|].
  reflexivity.
Qed.

(** X2.  A format name other than csv, txt, xlsx, excel and json, given
    explicitly or taken from the output path, makes [save_file] log
    "Unsupported format", return [False] and write nothing; a run of [main]
    whose output path has such a format, and that is not info-only, ends with
    status 1 and without a file, whatever stages ran before. *)
Theorem save_file_unsupported_format {E : Env} (output_file : string)
    (file_format : option string) :
  let fmt := default (suffix_format output_file) file_format in
  ~ In fmt ["csv"; "txt"; "xlsx"; "excel"; "json"] ->
  (forall st,
      save_file output_file file_format st =
        (Return false, st,
         [Info (SavingTo output_file fmt); Error (UnsupportedFormat fmt)])) /\
  (well_behaved E -> file_format = None ->
   forall args status st out,
     output args = output_file -> info args = false ->
     run args = (status, st, out) ->
     status = 1 /\ files st = []).
Proof.
  intros fmt Hnot. pose proof (kind_of_format_None fmt Hnot) as Hkind. split.
  - intros st. unfold save_file.
    replace (match file_format with Some f => f | None => suffix_format output_file end)
      with fmt by (destruct file_format; reflexivity).
    rewrite Hkind. reflexivity.
  - intros Hlibs -> args status st out <- Hinfo Hrun. cbn in fmt, Hkind.
    destruct (run_outcome args status st out Hlibs Hrun) as [r [-> Hpost]].
    destruct r as [u|e]; cbn in Hpost |- *.
    + destruct Hpost as [_ [_ [kind [d [_ [_ [Hk _]]]]]]]. unfold fmt in Hkind. congruence.
    + destruct e; cbn in Hpost; try (split; [reflexivity|exact (proj1 Hpost)]).
      destruct Hpost as [Hfiles [[_ [Hi _]] | [-> _]]]; [congruence|].
      split; [reflexivity|exact Hfiles].
Qed.

(** X3.  When every write to the output path fails with an exception,
    [save_file] logs "Failed to save file" and returns [False]; no writer has
    completed a file and the processor keeps its frame, but the path holds
    what the failed write left there, if it left anything: nothing removes
    it.  A run that is not info-only then ends with status 1, and whatever is
    on the disk is such a leftover at the output path. *)
Theorem save_file_write_failure {E : Env} (output_file : string) (e : exn) :
  is_exception e ->
  (forall kind d, write kind output_file d = Raise e) ->
  (forall st d kind,
      df st = Some d ->
      kind_of_format (suffix_format output_file) = Some kind ->
      save_file output_file None st =
        (Return false,
         (if leaves_file kind output_file d then add_leftover output_file st else st),
         [Info (SavingTo output_file (suffix_format output_file));
          Error (SaveFailed e)])) /\
  (well_behaved E ->
   forall args status st out,
     output args = output_file -> info args = false ->
     run args = (status, st, out) ->
     status = 1 /\ files st = [] /\
     (leftovers st = [] \/
      leftovers st = [output_file] /\
      exists kind d, df st = Some d /\ leaves_file kind output_file d = true)).
Proof.
  intros He Hfail. split.
  - intros st d kind Hdf Hkind. unfold save_file. rewrite Hkind.
    unfold_monad. rewrite Hdf. unfold to_file. rewrite (Hfail kind d).
    unfold_monad.
    destruct (leaves_file kind output_file d); cbn;
      (destruct e; try reflexivity; exfalso; exact (He code eq_refl)).
  - intros Hlibs args status st out <- Hinfo Hrun.
    destruct (run_outcome args status st out Hlibs Hrun) as [r [-> Hpost]].
    destruct r as [u|e']; cbn in Hpost |- *.
    + destruct Hpost as [_ [_ [kind [d [_ [_ [_ Hw]]]]]]]. rewrite Hfail in Hw.
      discriminate.
    + destruct e'; cbn in Hpost;
        try (destruct Hpost as [Hfiles Hleft];
             split; [reflexivity|]; split; [exact Hfiles|left; exact Hleft]).
      destruct Hpost as [Hfiles [[_ [Hi _]] | [-> Hleft]]]; [congruence|].
      split; [reflexivity|]. split; [exact Hfiles|].
      destruct Hleft as [Hleft|[Hleft [kind [d [e' [Hdf [_ Hleaves]]]]]]];
        [left; exact Hleft|].
      right. split; [exact Hleft|]. exists kind, d. split; assumption.
Qed.

(** * Loading, and runs that stop early *)
Section EarlyExits.

Context {E : Env}.

Lemma load_csv_fails (st : state) (e : exn) (encoding delimiter : string) :
  read_csv (input_file st) encoding delimiter = Raise e -> is_exception e ->
  load_csv encoding delimiter st =
    (Return false, st, [Info (Loading (input_file st)); Error (LoadFailed e)]).
Proof.
  intros Hread He. unfold load_csv. run_monad. rewrite Hread. cbn.
  destruct e; try reflexivity. exfalso. exact (He code eq_refl).
Qed.

Lemma column_labelled (cols : list (string * list cell)) (c : string * list cell) :
  NoDup (map fst cols) -> In c cols ->
  List.filter (fun col => String.eqb (fst col) (fst c)) cols = [c].
Proof.
  induction cols as [|a cols IH]; intros Hnd Hin; [destruct Hin|].
  cbn [map] in Hnd. apply NoDup_cons in Hnd as [Hfresh Hnd].
  rewrite list_elem_of_In in Hfresh. cbn [List.filter].
  destruct Hin as [->|Hin].
  - rewrite String.eqb_refl. f_equal. apply labelled_absent. exact Hfresh.
  - destruct (String.eqb_spec (fst a) (fst c)) as [Heq|Hne].
    + exfalso. apply Hfresh. rewrite Heq. apply in_map. exact Hin.
    + apply IH; assumption.
Qed.

Lemma info_lines_unique (d : DataFrame) (cols : list (string * list cell)) :
  unique_names d -> (forall c, In c cols -> In c (columns d)) ->
  info_lines d (map fst cols) =
    Return (map (fun c => (fst c, Z.of_nat (length (List.filter isnull (snd c))))) cols).
Proof.
  intros Hnd. induction cols as [|c cols IH]; intros Hsub; [reflexivity|].
  cbn [map info_lines]. unfold labelled.
  rewrite (column_labelled (columns d) c Hnd (Hsub c (or_introl eq_refl))).
  rewrite IH; [reflexivity|]. intros c' Hc'. apply Hsub. right. exact Hc'.
Qed.

Lemma show_info_ok (st : state) (d : DataFrame) :
  df st = Some d -> unique_names d ->
  show_info st = (Return tt, st, [PrintInfo (zlen d) (zcols d) (null_counts d)]).
Proof.
  intros Hdf Hnd. unfold show_info. run_monad. rewrite Hdf. cbn.
  unfold names. rewrite (info_lines_unique d (columns d) Hnd (fun c H => H)).
  reflexivity.
Qed.

Lemma null_counts_sum (d : DataFrame) :
  fold_right Z.add 0 (map snd (null_counts d)) = isnull_sum d.
Proof.
  unfold null_counts, isnull_sum, list_sum. rewrite map_map. cbn [snd].
  induction (columns d) as [|c cols IH]; [reflexivity|].
  cbn [map fold_right]. rewrite IH. lia.
Qed.

Lemma filter_rows_fails (st : state) (d : DataFrame) (expr : string) (e : exn) :
  df st = Some d -> expr <> "" ->
  query eval_expr d expr = Raise e -> is_exception e ->
  filter_rows (Some expr) st =
    (Return false, st, [Info (ApplyingFilter expr); Error (FilterFailed e)]).
Proof.
  intros Hdf Hne Hq He. unfold filter_rows. rewrite (truthy_Some expr Hne).
  cbn [negb default]. run_monad. repeat (rewrite Hdf; cbn). rewrite Hq. cbn.
  destruct e; try reflexivity. exfalso. exact (He code eq_refl).
Qed.

End EarlyExits.

(** X4.  When reading the input raises an exception, [load_csv] logs it and
    returns [False], and the run ends at once with status 1: the processor
    holds no frame, nothing else is logged and nothing is written. *)
Theorem load_failure_exits {E : Env} (args : Args) (e : exn) :
  read_csv (input args) (encoding args) (delimiter args) = Raise e ->
  is_exception e ->
  run args =
    (1, init (input args),
     [Info (Loading (input args)); Error (LoadFailed e)]).
Proof.
  intros Hread He. unfold run, main.
  rewrite (bind_return _ _ _ _ _ _ (load_csv_fails (init (input args)) e _ _ Hread He)).
  cbn [negb when].
  assert (Hexit : sys_exit (A:=unit) 1 (init (input args)) =
                  (Raise (SystemExit 1), init (input args), [])) by reflexivity.
  rewrite (bind_raise _ _ _ _ _ _ Hexit). reflexivity.
Qed.

(** X5.  An info-only run on a file that loads with unique column names
    prints the row count, the column count and one line per column with the
    number of nulls in it (the counts add up to the number of null cells),
    then ends with status 0: whatever stages were requested with it, the frame
    stays as loaded, no stage logs anything and no file is written. *)
Theorem info_only_run {E : Env} (args : Args) (d : DataFrame) :
  read_csv (input args) (encoding args) (delimiter args) = Return d ->
  unique_names d -> info args = true ->
  run args =
    (0, loaded args d,
     [Info (Loading (input args)); Info (Loaded (zlen d) (zcols d));
      PrintInfo (zlen d) (zcols d) (null_counts d)]) /\
  map fst (null_counts d) = names d /\
  fold_right Z.add 0 (map snd (null_counts d)) = isnull_sum d.
Proof.
  intros Hread Hnd Hinfo. split; [|split].
  - assert (Hshow : (show_info ;;; sys_exit (A:=unit) 0) (loaded args d) =
                    (Raise (SystemExit 0), loaded args d,
                     [PrintInfo (zlen d) (zcols d) (null_counts d)])).
    { rewrite (bind_return _ _ _ _ _ _ (show_info_ok (loaded args d) d eq_refl Hnd)).
      reflexivity. }
    unfold run, main.
    rewrite (bind_return _ _ _ _ _ _ (load_csv_ok (init (input args)) d _ _ Hread)).
    fold (loaded args d). rewrite Hinfo. cbn [negb when]. rewrite bind_ret_l.
    rewrite (bind_raise _ _ _ _ _ _ Hshow). reflexivity.
  - unfold null_counts, names. rewrite map_map. reflexivity.
  - apply null_counts_sum.
Qed.

(** X6.  When the filter expression cannot be evaluated on the loaded frame,
    [filter_rows] logs "Filter failed", returns [False] and leaves the frame
    as it was, and the run ends with status 1 before any later stage and
    without a file. *)
Theorem filter_failure_aborts {E : Env} (args : Args) (d : DataFrame)
    (expr : string) (e : exn) :
  read_csv (input args) (encoding args) (delimiter args) = Return d ->
  info args = false -> columns_arg args = None ->
  filter_arg args = Some expr -> expr <> "" ->
  query eval_expr d expr = Raise e -> is_exception e ->
  filter_rows (Some expr) (loaded args d) =
    (Return false, loaded args d,
     [Info (ApplyingFilter expr); Error (FilterFailed e)]) /\
  run args =
    (1, loaded args d,
     [Info (Loading (input args)); Info (Loaded (zlen d) (zcols d));
      Info (ApplyingFilter expr); Error (FilterFailed e)]).
Proof.
  intros Hread Hinfo Hcols Hfilter Hne Hq He.
  pose proof (filter_rows_fails (loaded args d) d expr e eq_refl Hne Hq He) as Hf.
  split; [exact Hf|].
  assert (Hstage : (r <- filter_rows (Some expr) ;; when (negb r) (sys_exit 1))
                     (loaded args d) =
                   (Raise (SystemExit 1), loaded args d,
                    [Info (ApplyingFilter expr); Error (FilterFailed e)])).
  { rewrite (bind_return _ _ _ _ _ _ Hf). reflexivity. }
  unfold run, main.
  rewrite (bind_return _ _ _ _ _ _ (load_csv_ok (init (input args)) d _ _ Hread)).
  fold (loaded args d).
  rewrite Hinfo, Hcols, Hfilter, (truthy_Some expr Hne).
  cbn [negb when truthy]. rewrite !bind_ret_l.
  rewrite (bind_raise _ _ _ _ _ _ Hstage). reflexivity.
Qed.

(** X7.  A run that requests no stage writes the frame exactly as loaded, in
    the format of the output path, reports zero rows processed and ends with
    status 0. *)
Theorem run_without_stages {E : Env} (args : Args) (d : DataFrame) (kind : file_kind) :
  read_csv (input args) (encoding args) (delimiter args) = Return d ->
  info args = false -> columns_arg args = None -> filter_arg args = None ->
  remove_duplicates_flag args = false -> fill_missing_arg args = None ->
  sort args = None ->
  kind_of_format (suffix_format (output args)) = Some kind ->
  write kind (output args) d = Return tt ->
  run args =
    (0, add_file (output args, kind, d) (loaded args d),
     [Info (Loading (input args)); Info (Loaded (zlen d) (zcols d));
      Info (SavingTo (output args) (suffix_format (output args))); Info FileSaved;
      PrintSummary (zlen d) (zlen d) 0 (zcols d);
      Info Completed]).
Proof.
  intros Hread Hinfo Hcols Hfilter Hdup Hfill Hsort Hkind Hwrite.
  unfold run, main.
  rewrite (bind_return _ _ _ _ _ _ (load_csv_ok (init (input args)) d _ _ Hread)).
  fold (loaded args d).
  rewrite Hinfo, Hcols, Hfilter, Hdup, Hfill, Hsort.
  cbn [negb when truthy]. rewrite !bind_ret_l.
  rewrite (bind_return _ _ _ _ _ _
             (save_file_ok (loaded args d) d (output args) kind eq_refl Hkind Hwrite)).
  cbn [negb when]. rewrite bind_ret_l.
  rewrite (bind_return _ _ _ _ _ _
             (show_summary_ok (add_file (output args, kind, d) (loaded args d)) d eq_refl)).
  cbn. rewrite Z.sub_diag. reflexivity.
Qed.

(** * Stages that fail *)

(** X8.  A stage that ends in any other way than returning [True] (it
    returns [False], returns nothing, or raises) leaves the processor exactly
    as it found it: the frame is rebound only on success. *)
Theorem failed_stage_keeps_processor {E : Env} (st : state) :
  (forall columns r st' out,
      select_columns columns st = (r, st', out) ->
      r <> Return (Some true) -> st' = st) /\
  (forall filter_expr r st' out,
      filter_rows filter_expr st = (r, st', out) ->
      r <> Return true -> st' = st) /\
  (forall sort_column ascending r st' out,
      sort_data sort_column ascending st = (r, st', out) ->
      r <> Return true -> st' = st) /\
  (forall subset r st' out,
      remove_duplicates subset st = (r, st', out) ->
      r <> Return true -> st' = st).
Proof.
  split; [|split; [|split]].
  - intros columns r st' out Hrun Hr. unfold select_columns in Hrun.
    destruct (truthy columns); cbn [negb] in Hrun; run_monad;
      [|injection Hrun as <- <- _; reflexivity].
    destruct (df st) as [d|] eqn:Hdf; repeat (rewrite Hdf in Hrun; cbn in Hrun);
      [|try (injection Hrun as <- <- _; reflexivity)].
    destruct (bool_decide _) in Hrun; cbn in Hrun;
      [|injection Hrun as <- <- _; reflexivity].
    destruct (getitem_list d _) as [d'|e]; cbn in Hrun; injection Hrun as <- <- _.
    + contradiction Hr. reflexivity.
    + reflexivity.
  - intros filter_expr r st' out Hrun Hr. unfold filter_rows in Hrun.
    destruct (truthy filter_expr); cbn [negb] in Hrun; run_monad;
      [|injection Hrun as <- <- _; reflexivity].
    destruct (df st) as [d|] eqn:Hdf; repeat (rewrite Hdf in Hrun; cbn in Hrun);
      [|try (injection Hrun as <- <- _; reflexivity)].
    destruct (query eval_expr d _) as [d'|e]; cbn in Hrun.
    + injection Hrun as <- <- _. contradiction Hr. reflexivity.
    + destruct e; injection Hrun as <- <- _; reflexivity.
  - intros sort_column ascending r st' out Hrun Hr. unfold sort_data in Hrun.
    destruct (truthy sort_column); cbn [negb] in Hrun; run_monad;
      [|injection Hrun as <- <- _; reflexivity].
    destruct (df st) as [d|] eqn:Hdf; repeat (rewrite Hdf in Hrun; cbn in Hrun);
      [|try (injection Hrun as <- <- _; reflexivity)].
    destruct (bool_decide _) in Hrun; cbn in Hrun;
      [|injection Hrun as <- <- _; reflexivity].
    destruct (sort_values argsort d _ ascending) as [d'|e]; cbn in Hrun;
      injection Hrun as <- <- _.
    + contradiction Hr. reflexivity.
    + reflexivity.
  - intros subset r st' out Hrun Hr. unfold remove_duplicates in Hrun. run_monad.
    destruct (df st) as [d|] eqn:Hdf; repeat (rewrite Hdf in Hrun; cbn in Hrun);
      [|try (injection Hrun as <- <- _; reflexivity)].
    destruct (drop_duplicates d subset) as [d'|e]; cbn in Hrun.
    + destruct (0 <? _) in Hrun; cbn in Hrun; injection Hrun as <- <- _;
        contradiction Hr; reflexivity.
    + injection Hrun as <- <- _. reflexivity.
Qed.

(** * A selection that succeeds *)
Lemma missing_names_empty (columns : string) (d : DataFrame) :
  (forall c, In c (requested columns) -> In c (names d)) ->
  missing_names columns d = ∅.
Proof.
  intros Hsub. apply elem_of_equiv_empty_L. intros c Hc.
  apply elem_of_missing_names in Hc as [Hin Hout]. exact (Hout (Hsub c Hin)).
Qed.

Lemma select_columns_ok (st : state) (d : DataFrame) (columns : string) :
  df st = Some d -> columns <> "" ->
  (forall c, In c (requested columns) -> In c (names d)) ->
  select_columns (Some columns) st =
    (Return (Some true),
     set_df {| index := index d;
               columns := flat_map (fun c => labelled c d) (requested columns) |} st,
     [Info (SelectingColumns (requested columns))]).
Proof.
  intros Hdf Hne Hsub. unfold select_columns.
  rewrite (truthy_Some columns Hne). cbn [negb default].
  run_monad. rewrite Hdf. cbn.
  fold (requested columns). fold (missing_names columns d).
  rewrite (missing_names_empty columns d Hsub).
  rewrite bool_decide_eq_true_2 by reflexivity. cbn.
  unfold getitem_list. rewrite (forallb_in_names d _ Hsub). reflexivity.
Qed.

(** With unique names every requested label brings its one column. *)
Lemma selected_columns (d : DataFrame) (l : list string) :
  unique_names d -> (forall c, In c l -> In c (names d)) ->
  Forall2 (fun name col => fst col = name /\ In col (columns d))
          l (flat_map (fun c => labelled c d) l).
Proof.
  intros Hnd. induction l as [|c l IH]; intros Hsub; [constructor|].
  destruct (In_names_column d c (Hsub c (or_introl eq_refl))) as [col [Hin Hfst]].
  cbn [flat_map]. unfold labelled at 1. rewrite <- Hfst.
  rewrite (column_labelled (columns d) col Hnd Hin). cbn [app].
  constructor; [tauto|]. apply IH. intros c' Hc'. apply Hsub. right. exact Hc'.
Qed.

Lemma names_of_selected (d : DataFrame) (l : list string)
    (cols : list (string * list cell)) :
  Forall2 (fun name col => fst col = name /\ In col (columns d)) l cols ->
  map fst cols = l.
Proof.
  induction 1 as [|name col l cols [Hfst _] _ IH]; [reflexivity|].
  cbn [map]. rewrite Hfst, IH. reflexivity.
Qed.

Lemma all_columns_selected (d : DataFrame) (cols : list (string * list cell)) :
  unique_names d -> (forall c, In c cols -> In c (columns d)) ->
  flat_map (fun c => labelled c d) (map fst cols) = cols.
Proof.
  intros Hnd. induction cols as [|c cols IH]; intros Hsub; [reflexivity|].
  cbn [map flat_map]. unfold labelled at 1.
  rewrite (column_labelled (columns d) c Hnd (Hsub c (or_introl eq_refl))).
  cbn [app]. f_equal. apply IH. intros c' Hc'. apply Hsub. right. exact Hc'.
Qed.


(** X10.  Selecting the same columns again changes nothing: after a
    successful selection whose request repeats no name, the same selection
    returns [True] and leaves the processor as it is. *)
Theorem select_columns_idempotent {E : Env} (st : state) (d : DataFrame)
    (columns : string) :
  df st = Some d -> unique_names d -> columns <> "" ->
  (forall c, In c (requested columns) -> In c (names d)) ->
  NoDup (requested columns) ->
  exists d',
    select_columns (Some columns) st =
      (Return (Some true), set_df d' st,
       [Info (SelectingColumns (requested columns))]) /\
    select_columns (Some columns) (set_df d' st) =
      (Return (Some true), set_df d' st,
       [Info (SelectingColumns (requested columns))]).
Proof.
  intros Hdf Hnd Hne Hsub Hreq.
  set (d' := {| index := index d;
                pd.columns := flat_map (fun c => labelled c d) (requested columns) |}).
  assert (Hnames : names d' = requested columns).
  { exact (names_of_selected d _ _ (selected_columns d (requested columns) Hnd Hsub)). }
  assert (Hnd' : unique_names d') by (unfold unique_names; rewrite Hnames; exact Hreq).
  exists d'. split; [exact (select_columns_ok st d columns Hdf Hne Hsub)|].
  rewrite (select_columns_ok (set_df d' st) d' columns eq_refl Hne).
  - rewrite <- Hnames. unfold names.
    rewrite (all_columns_selected d' (pd.columns d') Hnd' (fun c H => H)).
    destruct d' as [ix cols]. reflexivity.
  - intros c Hc. rewrite Hnames. exact Hc.
Qed.

(** * Deduplication, again *)
Lemma key_of_take (S : list string) (d : DataFrame) (idx : list nat) (j : nat) :
  (j < length idx)%nat -> key_of S (take d idx) j = key_of S d (nth j idx 0%nat).
Proof.
  intros Hj. unfold key_of, take. cbn [columns].
  rewrite <- (map_filter_commute
                (fun c : string * list cell => (fst c, take_list None (snd c) idx))
                (fun c => bool_decide (fst c ∈ S))).
  cbn [fst]. rewrite map_map. apply map_ext. intros c. cbn [snd].
  apply nth_take_list. exact Hj.
Qed.

Lemma increasing_nth (l : list nat) (i j : nat) :
  StronglySorted lt l -> (i < j)%nat -> (j < length l)%nat ->
  (nth i l 0 < nth j l 0)%nat.
Proof.
  intros Hs. revert i j. induction Hs as [|x l Hs IH Hall]; intros i j Hij Hj.
  - cbn in Hj. lia.
  - cbn [length] in Hj. destruct j as [|j]; [lia|]. cbn [nth].
    destruct i as [|i].
    + rewrite List.Forall_forall in Hall. apply Hall, nth_In. lia.
    + apply IH; lia.
Qed.

Lemma nonzero_all (mask : list bool) :
  (forall i, (i < length mask)%nat -> nth i mask false = true) ->
  nonzero mask = seq 0 (length mask).
Proof.
  intros H. unfold nonzero. apply filter_all_true.
  intros i Hi. apply in_seq in Hi. apply H. lia.
Qed.

Lemma drop_duplicates_len (d d' : DataFrame) (subset : option (list string)) :
  drop_duplicates d subset = Return d' -> (len d' <= len d)%nat.
Proof.
  unfold drop_duplicates. destruct (empty d).
  - intros [= <-]. lia.
  - destruct (duplicated d subset) as [dup|e]; [|discriminate].
    apply len_getitem_mask.
Qed.

(** X11.  Deduplication is idempotent: on a Dataset with at least one column
    and for no subset or a non-empty subset of its names, a second
    [remove_duplicates] with the same subset finds nothing to remove, leaves
    the frame as the first one left it and logs nothing. *)
Theorem remove_duplicates_idempotent {E : Env} (st : state) (d : DataFrame)
    (subset : option (list string)) :
  df st = Some d -> wf d -> columns d <> [] -> valid_subset d subset ->
  exists d' out,
    remove_duplicates subset st = (Return true, set_df d' st, out) /\
    remove_duplicates subset (set_df d' st) = (Return true, set_df d' st, []).
Proof.
  intros Hdf Hwf Hcols Hvalid.
  set (S := default (names d) subset).
  set (kept := nonzero (map negb (mark_seen ∅ (map (key_of S d) (seq 0 (len d)))))).
  assert (Hsorted : StronglySorted lt kept) by apply filter_seq_increasing.
  assert (Hcols' : columns (take d kept) <> []).
  { unfold take. cbn [columns]. destruct (columns d); [congruence|discriminate]. }
  assert (Hvalid' : valid_subset (take d kept) subset).
  { destruct subset as [l|]; [|exact I]. cbn [valid_subset] in *.
    rewrite names_take. exact Hvalid. }
  assert (Hagain : nonzero (map negb (mark_seen ∅
                     (map (key_of S (take d kept)) (seq 0 (len (take d kept)))))) =
                   seq 0 (len (take d kept))).
  { rewrite nonzero_all.
    - rewrite length_map, length_mark_seen, length_map, length_seq. reflexivity.
    - intros i Hi.
      rewrite length_map, length_mark_seen, length_map, length_seq in Hi.
      pose proof (In_first_occurrences S (take d kept) i) as Hfirst.
      rewrite In_nonzero in Hfirst. apply Hfirst.
      split; [exact Hi|]. rewrite len_take in Hi.
      intros j Hj. rewrite !key_of_take by lia.
      assert (Hin : In (nth i kept 0%nat) kept) by (apply nth_In; exact Hi).
      apply (In_first_occurrences S d) in Hin as [_ Hfst].
      apply Hfst. apply increasing_nth; assumption. }
  exists (take d kept). eexists. split.
  - rewrite (remove_duplicates_run st d subset Hdf).
    rewrite (drop_duplicates_valid d subset Hwf Hcols Hvalid). reflexivity.
  - rewrite (remove_duplicates_run (set_df (take d kept) st) (take d kept) subset eq_refl).
    rewrite (drop_duplicates_valid (take d kept) subset (wf_take d kept) Hcols' Hvalid').
    rewrite names_take. fold S. rewrite Hagain.
    rewrite (take_all (take d kept) (wf_take d kept)).
    rewrite Z.sub_diag. reflexivity.
Qed.

(** X12.  Whenever [remove_duplicates] returns, the frame has no more rows
    than before, and the log holds the one record "Removed n duplicate rows",
    with n the number of rows that went, exactly when at least one row went. *)
Theorem remove_duplicates_counts {E : Env} (st st' : state) (d : DataFrame)
    (subset : option (list string)) (r : bool) (out : list event) :
  df st = Some d ->
  remove_duplicates subset st = (Return r, st', out) ->
  exists d',
    r = true /\ df st' = Some d' /\ (len d' <= len d)%nat /\
    out = if (len d' <? len d)%nat
          then [Info (RemovedDuplicates (zlen d - zlen d'))]
          else [].
Proof.
  intros Hdf Hrun. rewrite (remove_duplicates_run st d subset Hdf) in Hrun.
  destruct (drop_duplicates d subset) as [d'|e] eqn:Hdrop; [|discriminate].
  injection Hrun as <- <- <-. exists d'.
  pose proof (drop_duplicates_len d d' subset Hdrop) as Hle.
  split; [reflexivity|]. split; [reflexivity|]. split; [exact Hle|].
  unfold zlen. destruct (Nat.ltb_spec (len d') (len d)) as [Hlt|Hge].
  - rewrite (proj2 (Z.ltb_lt _ _)) by lia. reflexivity.
  - rewrite (proj2 (Z.ltb_ge _ _)) by lia. reflexivity.
Qed.

(** X13.  A subset that names a column the frame does not have makes
    [remove_duplicates] raise [KeyError] (on a frame with rows and columns):
    the method does not catch it, logs nothing and leaves the frame as it
    was. *)
Theorem remove_duplicates_unknown_name {E : Env} (st : state) (d : DataFrame)
    (subset : list string) (c : string) :
  df st = Some d -> empty d = false ->
  In c subset -> ~ In c (names d) ->
  remove_duplicates (Some subset) st = (Raise KeyError, st, []).
Proof.
  intros Hdf Hempty Hin Hout.
  rewrite (remove_duplicates_run st d (Some subset) Hdf).
  unfold drop_duplicates, duplicated. rewrite Hempty.
  change (default (names d) (Some subset)) with subset.
  assert (Hall : forallb (fun c => bool_decide (c ∈ names d)) subset = false).
  { apply not_true_is_false. intros Hall. rewrite forallb_forall in Hall.
    apply Hout, list_elem_of_In. exact (bool_decide_eq_true_1 _ (Hall c Hin)). }
  rewrite Hall. reflexivity.
Qed.

(** * The missing-value stage, again *)
Lemma dropna_no_null (d : DataFrame) : ~ has_null (dropna d).
Proof.
  intros [c [Hc Hnone]]. unfold dropna, take in Hc. cbn [columns] in Hc.
  apply in_map_iff in Hc as [c0 [<- Hc0]]. cbn [snd] in Hnone.
  unfold take_list in Hnone. apply in_map_iff in Hnone as [i [Hnull Hi]].
  apply filter_In in Hi as [_ Hrow]. rewrite forallb_forall in Hrow.
  assert (Hcell : In (nth i (snd c0) None) (row d i)).
  { unfold row. apply (in_map (fun c => nth i (snd c) None)). exact Hc0. }
  specialize (Hrow _ Hcell). rewrite Hnull in Hrow. discriminate.
Qed.

Lemma fillna_no_null (v : scalar) (d : DataFrame) : ~ has_null (fillna v d).
Proof.
  intros [c [Hc Hnone]]. unfold fillna in Hc. cbn [columns] in Hc.
  apply in_map_iff in Hc as [c0 [<- _]]. cbn [snd] in Hnone.
  apply in_map_iff in Hnone as [x [Hx _]]. destruct x; discriminate.
Qed.

(** X14.  After the missing-value stage in mode 'drop' or 'fill' the frame
    has no null cell left, so that running the stage again, in any mode, is
    the logged no-op. *)
Theorem fill_missing_leaves_no_null {E : Env} (st : state) (d : DataFrame)
    (method : string) (value : option scalar) :
  df st = Some d -> method = "drop" \/ method = "fill" ->
  exists d' out,
    fill_missing method value st = (Return true, set_df d' st, out) /\
    ~ has_null d' /\
    forall method' value',
      fill_missing method' value' (set_df d' st) =
        (Return true, set_df d' st, [Info NoMissingValues]).
Proof.
  intros Hdf Hmode.
  assert (Hdone : forall d' out,
            fill_missing method value st = (Return true, set_df d' st, out) ->
            ~ has_null d' ->
            exists d' out,
              fill_missing method value st = (Return true, set_df d' st, out) /\
              ~ has_null d' /\
              forall method' value',
                fill_missing method' value' (set_df d' st) =
                  (Return true, set_df d' st, [Info NoMissingValues])).
  { intros d' out Hrun Hnull. exists d', out. split; [exact Hrun|].
    split; [exact Hnull|]. intros method' value'.
    apply (fill_missing_no_null (set_df d' st) d'); [reflexivity|exact Hnull]. }
  destruct (Z.eq_dec (isnull_sum d) 0) as [Hz|Hnz].
  - apply isnull_sum_zero in Hz. apply (Hdone d [Info NoMissingValues]); [|exact Hz].
    rewrite (set_df_same st d Hdf). apply (fill_missing_no_null st d); assumption.
  - destruct Hmode as [-> | ->].
    + eapply Hdone; [apply fill_missing_drop; eassumption|apply dropna_no_null].
    + eapply Hdone; [apply fill_missing_fill; eassumption|apply fillna_no_null].
Qed.

(** * Sorting what earlier stages left *)
Section SortAfter.

Context {E : Env}.

Lemma sort_data_raises (st : state) (d : DataFrame) (X : string) (ascending : bool)
    (e : exn) :
  df st = Some d -> X <> "" -> In X (names d) ->
  sort_values argsort d X ascending = Raise e ->
  sort_data (Some X) ascending st = (Raise e, st, [Info (SortingBy X ascending)]).
Proof.
  intros Hdf Hne Hin Hsort.
  rewrite (sort_data_present st d X ascending Hdf Hne Hin), Hsort. reflexivity.
Qed.

End SortAfter.

(** X15.  Sorting by a name that a selection has put on two columns fails:
    after a successful selection that requests the existing column [X] twice,
    [sort_data] by [X] logs "Sorting by", then raises [ValueError], which it
    does not catch, and leaves the frame as selected. *)
Theorem sort_after_repeated_selection {E : Env} (st : state) (d : DataFrame)
    (columns X : string) (ascending : bool) :
  df st = Some d -> unique_names d -> columns <> "" -> X <> "" ->
  requested columns = [X; X] -> In X (names d) ->
  exists d',
    select_columns (Some columns) st =
      (Return (Some true), set_df d' st, [Info (SelectingColumns [X; X])]) /\
    names d' = [X; X] /\
    sort_data (Some X) ascending (set_df d' st) =
      (Raise ValueError, set_df d' st, [Info (SortingBy X ascending)]).
Proof.
  intros Hdf Hnd Hne HX Hreq Hin.
  assert (Hsub : forall c, In c (requested columns) -> In c (names d)).
  { rewrite Hreq. intros c [<-|[<-|[]]]; exact Hin. }
  destruct (In_names_column d X Hin) as [col [Hcol Hfst]].
  assert (Hlab : labelled X d = [col]).
  { unfold labelled. rewrite <- Hfst. apply column_labelled; assumption. }
  pose proof (select_columns_ok st d columns Hdf Hne Hsub) as Hsel.
  rewrite Hreq in Hsel. cbn [flat_map] in Hsel. rewrite Hlab in Hsel.
  cbn [app] in Hsel.
  exists {| index := index d; pd.columns := [col; col] |}.
  split; [exact Hsel|]. split.
  - unfold names. cbn. rewrite Hfst. reflexivity.
  - apply (sort_data_raises _ {| index := index d; pd.columns := [col; col] |});
      [reflexivity|exact HX| |].
    + unfold names. cbn. left. exact Hfst.
    + unfold sort_values, labelled. cbn [pd.columns List.filter].
      rewrite Hfst, String.eqb_refl. reflexivity.
Qed.

(** X16.  Sorting by a column that the fill stage has made hold both numbers
    and strings fails: when column [X] holds a null and a string, 'fill' with
    the default literal 0 puts the number 0 among the strings, and [sort_data]
    by [X] then raises [TypeError], which it does not catch, leaving the
    filled frame unsorted. *)
Theorem sort_after_default_fill {E : Env} (st : state) (d : DataFrame)
    (X s : string) (items : list cell) (ascending : bool) :
  df st = Some d -> X <> "" ->
  labelled X d = [(X, items)] ->
  In None items -> In (Some (Str s)) items ->
  fill_missing "fill" None st =
    (Return true, set_df (fillna (int 0) d) st,
     [Info (FoundMissing (isnull_sum d)); Info (FilledMissing (int 0))]) /\
  sort_data (Some X) ascending (set_df (fillna (int 0) d) st) =
    (Raise TypeError, set_df (fillna (int 0) d) st,
     [Info (SortingBy X ascending)]).
Proof.
  intros Hdf HX Hlab Hnone Hstr.
  assert (Hcol : In (X, items) (columns d)).
  { apply (In_labelled d X). rewrite Hlab. left. reflexivity. }
  split.
  - apply (fill_missing_fill st d None Hdf). apply has_null_sum.
    exists (X, items). split; assumption.
  - assert (Hlab' : labelled X (fillna (int 0) d) = [(X, map (fill_cell (int 0)) items)]).
    { unfold labelled, fillna. cbn [columns].
      rewrite <- (map_filter_commute
                    (fun c : string * list cell => (fst c, map (fill_cell (int 0)) (snd c)))
                    (fun c => String.eqb (fst c) X)).
      cbn [fst]. fold (labelled X d). rewrite Hlab. reflexivity. }
    apply (sort_data_raises _ (fillna (int 0) d)); [reflexivity|exact HX| |].
    + rewrite names_fillna. unfold names.
      apply (in_map fst _ (X, items)). exact Hcol.
    + unfold sort_values. rewrite Hlab'. cbn [snd].
      assert (Hmixed : comparable (non_nans (map (fill_cell (int 0)) items)) = false).
      { assert (Hin0 : In (int 0) (non_nans (map (fill_cell (int 0)) items))).
        { unfold non_nans. apply list_elem_of_In, list_elem_of_omap.
          exists (Some (int 0)). split; [|reflexivity].
          apply list_elem_of_In. apply (in_map (fill_cell (int 0)) _ None). exact Hnone. }
        assert (Hins : In (Str s) (non_nans (map (fill_cell (int 0)) items))).
        { unfold non_nans. apply list_elem_of_In, list_elem_of_omap.
          exists (Some (Str s)). split; [|reflexivity].
          apply list_elem_of_In.
          apply (in_map (fill_cell (int 0)) _ (Some (Str s))). exact Hstr. }
        unfold comparable. apply orb_false_iff. split; apply not_true_is_false;
          intros Hall; rewrite forallb_forall in Hall.
        - specialize (Hall _ Hins). discriminate.
        - specialize (Hall _ Hin0). discriminate. }
      rewrite Hmixed. reflexivity.
Qed.




Section WrittenFrame.

Context {E : Env}.
Hypothesis Hargsort : argsort_ok argsort.







End WrittenFrame.




Section WrittenFrameMain.

Context {E : Env}.
Hypothesis Hargsort : argsort_ok argsort.
Variable args : Args.
Variable d : DataFrame.
Hypothesis Hread : read_csv (input args) (encoding args) (delimiter args) = Return d.




End WrittenFrameMain.


(** * Requested names are trimmed *)
Lemma lstrip_chars_head (l : list ascii) :
  lstrip_chars l = [] \/
  exists c l', lstrip_chars l = c :: l' /\ isspace c = false.
Proof.
  induction l as [|c l IH]; cbn [lstrip_chars]; [left; reflexivity|].
  destruct (isspace c) eqn:Hc; [exact IH|].
  right. exists c, l. split; [reflexivity|exact Hc].
Qed.

Lemma lstrip_chars_fixed (c : ascii) (l : list ascii) :
  isspace c = false -> lstrip_chars (c :: l) = c :: l.
Proof. intros Hc. cbn [lstrip_chars]. rewrite Hc. reflexivity. Qed.

Lemma lstrip_chars_idempotent (l : list ascii) :
  lstrip_chars (lstrip_chars l) = lstrip_chars l.
Proof.
  destruct (lstrip_chars_head l) as [->|[c [l' [-> Hc]]]]; [reflexivity|].
  apply lstrip_chars_fixed, Hc.
Qed.

(** Stripping in front of a list that ends with a non-space keeps that end. *)
Lemma lstrip_chars_snoc (l : list ascii) (c : ascii) :
  isspace c = false -> exists l', lstrip_chars (l ++ [c]) = l' ++ [c].
Proof.
  intros Hc. induction l as [|a l IH]; cbn [app lstrip_chars].
  - rewrite Hc. exists []. reflexivity.
  - destruct (isspace a); [exact IH|]. exists (a :: l). reflexivity.
Qed.

Lemma strip_chars_fixed (l : list ascii) :
  let t := rev (lstrip_chars (rev (lstrip_chars l))) in
  rev (lstrip_chars (rev (lstrip_chars t))) = t.
Proof.
  cbn zeta.
  assert (Hfront : lstrip_chars (rev (lstrip_chars (rev (lstrip_chars l)))) =
                   rev (lstrip_chars (rev (lstrip_chars l)))).
  { destruct (lstrip_chars_head l) as [->|[c [l' [-> Hc]]]]; [reflexivity|].
    cbn [rev]. destruct (lstrip_chars_snoc (rev l') c Hc) as [l'' ->].
    rewrite rev_app_distr. cbn [rev app]. apply lstrip_chars_fixed, Hc. }
  rewrite Hfront, rev_involutive, lstrip_chars_idempotent. reflexivity.
Qed.

Lemma strip_idempotent (s : string) : strip (strip s) = strip s.
Proof.
  unfold strip. rewrite list_ascii_of_string_of_list_ascii.
  f_equal. apply strip_chars_fixed.
Qed.

(** What [lstrip] takes away is whitespace. *)
Lemma lstrip_chars_split (l : list ascii) :
  exists pre, l = pre ++ lstrip_chars l /\ blank pre.
Proof.
  induction l as [|a l [pre [Hl Hpre]]]; cbn [lstrip_chars].
  - exists []. split; [reflexivity|constructor].
  - destruct (isspace a) eqn:Ha.
    + exists (a :: pre). split; [cbn [app]; f_equal; exact Hl|].
      constructor; assumption.
    + exists []. split; [reflexivity|constructor].
Qed.

Lemma strip_chars_split (l : list ascii) :
  exists pre post,
    l = pre ++ rev (lstrip_chars (rev (lstrip_chars l))) ++ post /\
    blank pre /\ blank post.
Proof.
  destruct (lstrip_chars_split l) as [pre [Hl Hpre]].
  destruct (lstrip_chars_split (rev (lstrip_chars l))) as [post [Hr Hpost]].
  exists pre, (rev post). split; [|split; [exact Hpre|]].
  - rewrite <- rev_app_distr, <- Hr, rev_involutive. exact Hl.
  - unfold blank in *. apply List.Forall_rev. exact Hpost.
Qed.

Lemma strip_chars_trimmed (l : list ascii) (c : ascii) (rest : list ascii) :
  isspace c = true ->
  rev (lstrip_chars (rev (lstrip_chars l))) <> c :: rest /\
  rev (lstrip_chars (rev (lstrip_chars l))) <> rest ++ [c].
Proof.
  intros Hc. split; intros Heq.
  - destruct (lstrip_chars_head l) as [Hnil|[c0 [l' [Hl Hc0]]]].
    + rewrite Hnil in Heq. discriminate.
    + rewrite Hl in Heq. cbn [rev] in Heq.
      destruct (lstrip_chars_snoc (rev l') c0 Hc0) as [l'' Hl''].
      rewrite Hl'', rev_app_distr in Heq. cbn [rev app] in Heq.
      injection Heq as -> _. congruence.
  - apply (f_equal (@rev ascii)) in Heq.
    rewrite rev_involutive, rev_app_distr in Heq. cbn [rev app] in Heq.
    destruct (lstrip_chars_head (rev (lstrip_chars l))) as [Hnil|[c0 [l' [Hl Hc0]]]].
    + rewrite Hnil in Heq. discriminate.
    + rewrite Hl in Heq. injection Heq as -> _. congruence.
Qed.

(** X18.  The names that [select_columns] looks up are trimmed: every name of
    [col_list] is a field of the request (the text between two commas) without
    the whitespace that the field starts and ends with, and it neither starts
    nor ends with a whitespace character itself, so that blanks around the
    commas of the request never reach the comparison with the column names. *)
Theorem requested_names_stripped (columns c : string) :
  In c (requested columns) ->
  trimmed c /\
  exists field pre post,
    In field (split "," columns) /\
    list_ascii_of_string field = pre ++ list_ascii_of_string c ++ post /\
    blank pre /\ blank post.
Proof.
  intros Hc. unfold requested in Hc. apply in_map_iff in Hc as [field [<- Hfield]].
  unfold strip. split.
  - intros a Ha rest. rewrite list_ascii_of_string_of_list_ascii.
    apply strip_chars_trimmed. exact Ha.
  - destruct (strip_chars_split (list_ascii_of_string field)) as [pre [post [Heq Hb]]].
    exists field, pre, post. split; [exact Hfield|].
    rewrite list_ascii_of_string_of_list_ascii. split; [exact Heq|exact Hb].
Qed.






(** The run without a stage when the disk is full: status 1, and the file
    that the failed write left. *)
Example run_on_full_disk :
  @run World.full_disk World.plain =
    (1, add_leftover "out.csv" (loaded World.plain World.people),
     [Info (Loading "people.csv"); Info (Loaded 4 3);
      Info (SavingTo "out.csv" "csv"); Error (SaveFailed OSError)]).
Proof. vm_compute. reflexivity. Qed.


Lemma save_file_unsupported_format_witness :
  ~ In (default (@suffix_format World.world "out.tsv") None)
       ["csv"; "txt"; "xlsx"; "excel"; "json"] /\
  (forall st,
      @save_file World.world "out.tsv" None st =
        (Return false, st,
         [Info (SavingTo "out.tsv" "tsv"); Error (UnsupportedFormat "tsv")])) /\
  (well_behaved World.world -> @None string = None ->
   forall args status st out,
     output args = "out.tsv" -> info args = false ->
     @run World.world args = (status, st, out) ->
     status = 1 /\ files st = []).
Proof.
  assert (Hnot : ~ In (default (@suffix_format World.world "out.tsv") None)
                      ["csv"; "txt"; "xlsx"; "excel"; "json"]).
  { vm_compute. intros [H|[H|[H|[H|[H|[]]]]]]; discriminate. }
  split; [exact Hnot|].
  exact (@save_file_unsupported_format World.world "out.tsv" None Hnot).
Defined.

Lemma save_file_write_failure_witness :
  is_exception OSError /\
  (forall kind d, @write World.full_disk kind "out.csv" d = Raise OSError) /\
  (forall st d kind,
      df st = Some d ->
      kind_of_format (@suffix_format World.full_disk "out.csv") = Some kind ->
      @save_file World.full_disk "out.csv" None st =
        (Return false,
         (if @leaves_file World.full_disk kind "out.csv" d
          then add_leftover "out.csv" st else st),
         [Info (SavingTo "out.csv" (@suffix_format World.full_disk "out.csv"));
          Error (SaveFailed OSError)])) /\
  (well_behaved World.full_disk ->
   forall args status st out,
     output args = "out.csv" -> info args = false ->
     @run World.full_disk args = (status, st, out) ->
     status = 1 /\ files st = [] /\
     (leftovers st = [] \/
      leftovers st = ["out.csv"] /\
      exists kind d,
        df st = Some d /\ @leaves_file World.full_disk kind "out.csv" d = true)).
Proof.
  assert (He : is_exception OSError) by (intros c; discriminate).
  assert (Hfail : forall kind d, @write World.full_disk kind "out.csv" d = Raise OSError)
    by reflexivity.
  split; [exact He|]. split; [exact Hfail|].
  exact (@save_file_write_failure World.full_disk "out.csv" OSError He Hfail).
Defined.

Lemma load_failure_exits_witness :
  @read_csv World.world "nowhere.csv" "utf-8" "," = Raise OSError /\
  is_exception OSError /\
  @run World.world World.missing_input =
    (1, init "nowhere.csv", [Info (Loading "nowhere.csv"); Error (LoadFailed OSError)]).
Proof.
  assert (He : is_exception OSError) by (intros c; discriminate).
  split; [reflexivity|]. split; [exact He|].
  exact (@load_failure_exits World.world World.missing_input OSError eq_refl He).
Defined.

Lemma info_only_run_witness :
  @read_csv World.world "people.csv" "utf-8" "," = Return World.people /\
  unique_names World.people /\ info World.info_only = true /\
  @run World.world World.info_only =
    (0, loaded World.info_only World.people,
     [Info (Loading "people.csv"); Info (Loaded 4 3);
      PrintInfo 4 3 (null_counts World.people)]) /\
  map fst (null_counts World.people) = names World.people /\
  fold_right Z.add 0 (map snd (null_counts World.people)) = isnull_sum World.people.
Proof.
  split; [reflexivity|]. split; [exact unique_names_people|]. split; [reflexivity|].
  exact (@info_only_run World.world World.info_only World.people eq_refl
           unique_names_people eq_refl).
Defined.

(** [--filter zip] on [people.csv], which has no column [zip]. *)
Lemma filter_failure_aborts_witness :
  @query (@eval_expr World.world) World.people "zip" =
    Raise (EvalError "name is not defined") /\
  @filter_rows World.world (Some "zip") (loaded World.filter_by_zip World.people) =
    (Return false, loaded World.filter_by_zip World.people,
     [Info (ApplyingFilter "zip");
      Error (FilterFailed (EvalError "name is not defined"))]) /\
  @run World.world World.filter_by_zip =
    (1, loaded World.filter_by_zip World.people,
     [Info (Loading "people.csv"); Info (Loaded 4 3);
      Info (ApplyingFilter "zip");
      Error (FilterFailed (EvalError "name is not defined"))]).
Proof.
  split; [reflexivity|].
  apply (@filter_failure_aborts World.world World.filter_by_zip World.people "zip"
           (EvalError "name is not defined")); try reflexivity.
  - discriminate.
  - intros c. discriminate.
Defined.

(** [--filter id] on [people.csv] does not fail: the values 1, 2, 2, 3 of the
    integer column [id] are taken as row labels, and the run writes the rows
    labelled 1, 2, 2 and 3 and ends with status 0. *)
Example filter_by_label_run :
  match @run World.world World.filter_by_id with
  | (status, st, out) =>
      status = 0 /\
      df st = Some (take World.people [1; 2; 2; 3]%nat) /\
      In (Info (FilteredOut 0 4)) out
  end.
Proof. vm_compute. split; [reflexivity|]. split; [reflexivity|]. tauto. Qed.

Lemma run_without_stages_witness :
  @run World.world World.plain =
    (0, add_file ("out.csv", CsvFile, World.people) (loaded World.plain World.people),
     [Info (Loading "people.csv"); Info (Loaded 4 3);
      Info (SavingTo "out.csv" "csv"); Info FileSaved;
      PrintSummary 4 4 0 3; Info Completed]).
Proof.
  apply (@run_without_stages World.world World.plain World.people CsvFile);
    reflexivity.
Defined.

Lemma requested_name_id_people :
  forall c, In c (requested "name, id") -> In c (names World.people).
Proof. intros c [<-|[<-|[]]]; vm_compute; tauto. Qed.


Lemma select_columns_idempotent_witness :
  df World.ready = Some World.people /\ unique_names World.people /\
  "name, id" <> "" /\
  (forall c, In c (requested "name, id") -> In c (names World.people)) /\
  NoDup (requested "name, id") /\
  exists d',
    select_columns (Some "name, id") World.ready =
      (Return (Some true), set_df d' World.ready,
       [Info (SelectingColumns (requested "name, id"))]) /\
    select_columns (Some "name, id") (set_df d' World.ready) =
      (Return (Some true), set_df d' World.ready,
       [Info (SelectingColumns (requested "name, id"))]).
Proof.
  assert (Hnd : NoDup (requested "name, id")).
  { apply (bool_decide_unpack _). vm_compute. exact I. }
  split; [reflexivity|]. split; [exact unique_names_people|].
  split; [discriminate|]. split; [exact requested_name_id_people|].
  split; [exact Hnd|].
  apply (@select_columns_idempotent World.world World.ready World.people "name, id");
    [reflexivity|exact unique_names_people|discriminate
    |exact requested_name_id_people|exact Hnd].
Defined.

Lemma valid_subset_name : valid_subset World.people (Some ["name"]).
Proof. split; [discriminate|]. intros c [<-|[]]. right. left. reflexivity. Qed.

Lemma remove_duplicates_idempotent_witness :
  df World.ready = Some World.people /\ wf World.people /\
  columns World.people <> [] /\ valid_subset World.people (Some ["name"]) /\
  exists d' out,
    remove_duplicates (Some ["name"]) World.ready =
      (Return true, set_df d' World.ready, out) /\
    remove_duplicates (Some ["name"]) (set_df d' World.ready) =
      (Return true, set_df d' World.ready, []).
Proof.
  split; [reflexivity|]. split; [exact wf_people|]. split; [discriminate|].
  split; [exact valid_subset_name|].
  apply (@remove_duplicates_idempotent World.world World.ready World.people
           (Some ["name"])); [reflexivity|exact wf_people|discriminate
                             |exact valid_subset_name].
Defined.

Lemma remove_duplicates_counts_witness :
  df World.ready = Some World.people /\
  remove_duplicates (Some ["name"]) World.ready =
    (Return true, set_df (take World.people [0; 1; 2]%nat) World.ready,
     [Info (RemovedDuplicates 1)]) /\
  exists d',
    true = true /\
    df (set_df (take World.people [0; 1; 2]%nat) World.ready) = Some d' /\
    (len d' <= len World.people)%nat /\
    [Info (RemovedDuplicates 1)] =
      if (len d' <? len World.people)%nat
      then [Info (RemovedDuplicates (zlen World.people - zlen d'))]
      else [].
Proof.
  split; [reflexivity|]. split; [vm_compute; reflexivity|].
  apply (@remove_duplicates_counts World.world World.ready _ World.people
           (Some ["name"])); [reflexivity|vm_compute; reflexivity].
Defined.

Lemma remove_duplicates_unknown_name_witness :
  df World.ready = Some World.people /\ empty World.people = false /\
  In "zip" ["zip"] /\ ~ In "zip" (names World.people) /\
  remove_duplicates (Some ["zip"]) World.ready = (Raise KeyError, World.ready, []).
Proof.
  assert (Hout : ~ In "zip" (names World.people)).
  { vm_compute. intros [H|[H|[H|[]]]]; discriminate. }
  split; [reflexivity|]. split; [reflexivity|]. split; [left; reflexivity|].
  split; [exact Hout|].
  apply (@remove_duplicates_unknown_name World.world World.ready World.people
           ["zip"] "zip"); [reflexivity|reflexivity|left; reflexivity|exact Hout].
Defined.

Lemma fill_missing_leaves_no_null_witness :
  df World.ready = Some World.people /\ ("fill" = "drop" \/ "fill" = "fill") /\
  exists d' out,
    fill_missing "fill" None World.ready = (Return true, set_df d' World.ready, out) /\
    ~ has_null d' /\
    forall method' value',
      fill_missing method' value' (set_df d' World.ready) =
        (Return true, set_df d' World.ready, [Info NoMissingValues]).
Proof.
  split; [reflexivity|]. split; [right; reflexivity|].
  apply (@fill_missing_leaves_no_null World.world World.ready World.people "fill" None);
    [reflexivity|right; reflexivity].
Defined.

Lemma sort_after_repeated_selection_witness :
  df World.ready = Some World.people /\ unique_names World.people /\
  "id,id" <> "" /\ "id" <> "" /\ requested "id,id" = ["id"; "id"] /\
  In "id" (names World.people) /\
  exists d',
    select_columns (Some "id,id") World.ready =
      (Return (Some true), set_df d' World.ready,
       [Info (SelectingColumns ["id"; "id"])]) /\
    names d' = ["id"; "id"] /\
    @sort_data World.world (Some "id") true (set_df d' World.ready) =
      (Raise ValueError, set_df d' World.ready, [Info (SortingBy "id" true)]).
Proof.
  split; [reflexivity|]. split; [exact unique_names_people|].
  split; [discriminate|]. split; [discriminate|]. split; [reflexivity|].
  split; [left; reflexivity|].
  apply (@sort_after_repeated_selection World.world World.ready World.people
           "id,id" "id" true);
    [reflexivity|exact unique_names_people|discriminate|discriminate
    |reflexivity|left; reflexivity].
Defined.

Lemma sort_after_default_fill_witness :
  df World.ready = Some World.people /\ "name" <> "" /\
  labelled "name" World.people =
    [("name", [Some (Str "ann"); None; Some (Str "bob"); Some (Str "bob")])] /\
  In None [Some (Str "ann"); None; Some (Str "bob"); Some (Str "bob")] /\
  In (Some (Str "ann")) [Some (Str "ann"); None; Some (Str "bob"); Some (Str "bob")] /\
  fill_missing "fill" None World.ready =
    (Return true, set_df (fillna (int 0) World.people) World.ready,
     [Info (FoundMissing (isnull_sum World.people)); Info (FilledMissing (int 0))]) /\
  @sort_data World.world (Some "name") true
      (set_df (fillna (int 0) World.people) World.ready) =
    (Raise TypeError, set_df (fillna (int 0) World.people) World.ready,
     [Info (SortingBy "name" true)]).
Proof.
  split; [reflexivity|]. split; [discriminate|]. split; [reflexivity|].
  split; [right; left; reflexivity|]. split; [left; reflexivity|].
  apply (@sort_after_default_fill World.world World.ready World.people "name" "ann"
           [Some (Str "ann"); None; Some (Str "bob"); Some (Str "bob")] true);
    [reflexivity|discriminate|reflexivity|right; left; reflexivity|left; reflexivity].
Defined.

Lemma wf_ab : wf World.ab.
Proof. unfold wf. repeat constructor. Qed.

Lemma unique_names_ab : unique_names World.ab.
Proof. unfold unique_names. apply (bool_decide_unpack _). vm_compute. exact I. Qed.


(** The request [ id , age ]: the name [age] comes from the field [ age ]. *)
Lemma requested_names_stripped_witness :
  In "age" (requested " id , age ") /\
  trimmed "age" /\
  exists field pre post,
    In field (split "," " id , age ") /\
    list_ascii_of_string field = pre ++ list_ascii_of_string "age" ++ post /\
    blank pre /\ blank post.
Proof.
  assert (Hin : In "age" (requested " id , age ")) by (right; left; reflexivity).
  split; [exact Hin|].
  exact (requested_names_stripped " id , age " "age" Hin).
Defined.
